(** * The search routes of the portfolio API (routes/search.js over database/db.js)

    A shallow embedding of the two Express handlers

      GET /api/search            (basic search: fan-out, merge, relevance sort)
      GET /api/search/advanced   (type / category filters and a limit)

    together with the parts of the JavaScript runtime and of the SQL engine
    that decide what they return:

    - strings are sequences of 8-bit code units (the Latin-1 range of a
      JavaScript string), with [toLowerCase], [trim], [indexOf], [parseInt]
      and [Array.prototype.slice] / [sort] written out;
    - the store holds the four searched tables of database/db.js; the SELECT
      statements of the handlers are a data type [Query], evaluated by
      [run_query] with SQL's three-valued logic; the column collation, which
      the schema does not name, is a field of the database handle;
    - [db.all] is an operation of a small monad that logs every query issued
      and may throw (an unreachable database), so that the [try]/[catch] of
      the handlers and the number of queries issued can be stated.

    Query-string parameters are modelled at type string (absent = [None]);
    repeated or bracketed parameters, which Express parses into arrays and
    objects, are outside the model. *)

From Stdlib Require Import ZArith Bool List Ascii String Lia Sorted Permutation.
Import ListNotations.
Local Open Scope string_scope.
Local Open Scope list_scope.

(* ===================================================================== *)
(** ** JavaScript strings *)
(* ===================================================================== *)

Module JS.

Definition code (c : ascii) : Z := Z.of_nat (nat_of_ascii c).

Definition between (lo hi n : Z) : bool := ((lo <=? n) && (n <=? hi))%Z.

(** WhiteSpace and LineTerminator code units below 256: TAB, LF, VT, FF, CR,
    SP and NBSP.  [trim] and [parseInt] strip exactly these. *)
Definition isWhiteSpace (c : ascii) : bool :=
  let n := code c in
  (between 9 13 n || (n =? 32) || (n =? 160))%Z.

(** [String.prototype.toLowerCase], one code unit at a time: A-Z, and the
    Latin-1 capitals U+00C0..U+00DE except the multiplication sign. *)
Definition lowerChar (c : ascii) : ascii :=
  let n := code c in
  if (between 65 90 n || (between 192 222 n && negb (n =? 215)))%Z
  then ascii_of_nat (nat_of_ascii c + 32)
  else c.

Fixpoint toLowerCase (s : string) : string :=
  match s with
  | EmptyString => EmptyString
  | String c s' => String (lowerChar c) (toLowerCase s')
  end.

Fixpoint trimStart (s : string) : string :=
  match s with
  | EmptyString => EmptyString
  | String c s' => if isWhiteSpace c then trimStart s' else s
  end.

Fixpoint trimEnd (s : string) : string :=
  match s with
  | EmptyString => EmptyString
  | String c s' =>
      match trimEnd s' with
      | EmptyString => if isWhiteSpace c then EmptyString else String c EmptyString
      | t => String c t
      end
  end.

Definition trim (s : string) : string := trimEnd (trimStart s).

(** [s.indexOf(t)]: the least position at which [t] occurs in [s], or -1. *)
Fixpoint indexOf (s t : string) : Z :=
  if String.prefix t s then 0%Z
  else match s with
       | EmptyString => (-1)%Z
       | String _ s' =>
           let i := indexOf s' t in
           if (i <? 0)%Z then (-1)%Z else (i + 1)%Z
       end.

(** A string is falsy exactly when it is empty; [undefined] is falsy. *)
Definition truthy (v : option string) : bool :=
  match v with
  | None => false
  | Some s => negb (String.eqb s EmptyString)
  end.

(** *** parseInt(string) with no radix argument *)

Definition digitValue (radix : Z) (c : ascii) : option Z :=
  let n := code c in
  let d := if between 48 57 n then Some (n - 48)%Z
           else if between 97 122 n then Some (n - 87)%Z
           else if between 65 90 n then Some (n - 55)%Z
           else None in
  match d with
  | Some v => if (v <? radix)%Z then Some v else None
  | None => None
  end.

(** The value of the longest prefix of radix digits; [None] when it is empty. *)
Fixpoint parseDigits (radix : Z) (s : string) (acc : option Z) : option Z :=
  match s with
  | EmptyString => acc
  | String c s' =>
      match digitValue radix c with
      | Some v =>
          parseDigits radix s'
            (Some (match acc with Some a => a * radix + v | None => v end)%Z)
      | None => acc
      end
  end.

Definition stripSign (s : string) : Z * string :=
  match s with
  | String c s' =>
      if Ascii.eqb c "-" then ((-1)%Z, s')
      else if Ascii.eqb c "+" then (1%Z, s')
      else (1%Z, s)
  | EmptyString => (1%Z, s)
  end.

Definition stripHexPrefix (s : string) : Z * string :=
  match s with
  | String c (String x s') =>
      if Ascii.eqb c "0" && (Ascii.eqb x "x" || Ascii.eqb x "X")
      then (16%Z, s') else (10%Z, s)
  | _ => (10%Z, s)
  end.

(** [None] stands for NaN. *)
Definition parseInt (s : string) : option Z :=
  let (sign, s1) := stripSign (trimStart s) in
  let (radix, s2) := stripHexPrefix s1 in
  match parseDigits radix s2 None with
  | None => None
  | Some m => Some (sign * m)%Z
  end.

(** *** Arrays *)

(** [arr.slice(0, end)]: NaN counts as 0, a negative end counts from the
    back, and the end is clamped to the length. *)
Definition slice0 {A : Type} (arr : list A) (end_ : option Z) : list A :=
  let len := Z.of_nat (List.length arr) in
  let relativeEnd := match end_ with None => 0%Z | Some e => e end in
  let final := if (relativeEnd <? 0)%Z then Z.max (len + relativeEnd) 0
               else Z.min relativeEnd len in
  firstn (Z.to_nat final) arr.

(** [arr.sort(cmp)].  The specification requires a stable sort; for a
    consistent comparator every stable sort returns the same array, which
    is the one this insertion sort builds. *)
Fixpoint insert {A : Type} (cmp : A -> A -> Z) (x : A) (l : list A) : list A :=
  match l with
  | [] => [x]
  | y :: l' => if (cmp x y <=? 0)%Z then x :: y :: l' else y :: insert cmp x l'
  end.

Fixpoint sort {A : Type} (cmp : A -> A -> Z) (l : list A) : list A :=
  match l with
  | [] => []
  | x :: l' => insert cmp x (sort cmp l')
  end.

(** The comparator lets [a] stand before [b]: it does not return a positive
    number for the pair. *)
Definition before {A : Type} (cmp : A -> A -> Z) (a b : A) : Prop := (cmp a b <= 0)%Z.

End JS.

(* ===================================================================== *)
(** ** The relational store *)
(* ===================================================================== *)

Module SQL.

(** The columns of database/db.js that the search statements read.  [id] is
    the INT primary key; TEXT and VARCHAR columns without NOT NULL, and the
    INT [proficiency], are nullable. *)
Record ProfileRow := {
  profile_id : Z;
  profile_name : string;
  profile_email : string;
  profile_education : option string }.

Record SkillRow := {
  skill_id : Z;
  skill_name : string;
  skill_proficiency : option Z;
  skill_category : option string }.

Record ProjectRow := {
  project_id : Z;
  project_title : string;
  project_description : option string }.

Record WorkRow := {
  work_id : Z;
  work_company : string;
  work_position : string;
  work_description : option string }.

Record Store := {
  profile : list ProfileRow;
  skills : list SkillRow;
  projects : list ProjectRow;
  work_experience : list WorkRow }.

(** The object every SELECT projects a row into:
    [{type, title, description, category, id}]. *)
Record ResultRow := {
  type : string;
  title : string;
  description : option string;
  category : option string;
  id : Z }.

(** *** LIKE *)

Inductive LikeToken := AnyString | AnyChar | Literal (c : ascii).

(** [%] matches any string, [_] any one character, and a backslash makes the
    next character literal. *)
Fixpoint like_tokens (pattern : string) : list LikeToken :=
  match pattern with
  | EmptyString => []
  | String c p =>
      if Ascii.eqb c "\" then
        match p with
        | EmptyString => [Literal c]
        | String d p' => Literal d :: like_tokens p'
        end
      else if Ascii.eqb c "%" then AnyString :: like_tokens p
      else if Ascii.eqb c "_" then AnyChar :: like_tokens p
      else Literal c :: like_tokens p
  end.

(** Characters are compared through the collation key [coll]: the identity
    for a binary collation, a case folding for a [_ci] one. *)
Fixpoint like_match (coll : ascii -> ascii) (ts : list LikeToken) (s : string) : bool :=
  match ts with
  | [] => match s with EmptyString => true | String _ _ => false end
  | AnyString :: ts' =>
      (fix skip (s : string) : bool :=
         like_match coll ts' s
         || match s with EmptyString => false | String _ s' => skip s' end) s
  | AnyChar :: ts' =>
      match s with EmptyString => false | String _ s' => like_match coll ts' s' end
  | Literal c :: ts' =>
      match s with
      | EmptyString => false
      | String d s' => Ascii.eqb (coll c) (coll d) && like_match coll ts' s'
      end
  end.

Fixpoint collation_key (coll : ascii -> ascii) (s : string) : string :=
  match s with
  | EmptyString => EmptyString
  | String c s' => String (coll c) (collation_key coll s')
  end.

(** SQL truth values: [None] is UNKNOWN, the value of a comparison with NULL. *)
Definition sql_bool := option bool.

(** [v LIKE pattern]; UNKNOWN when the column is NULL. *)
Definition sql_like (coll : ascii -> ascii) (v : option string) (pattern : string) : sql_bool :=
  match v with
  | None => None
  | Some s => Some (like_match coll (like_tokens pattern) s)
  end.

(** [v = x]: equality of the collation keys, so exact equality under a
    binary collation; UNKNOWN when the column is NULL. *)
Definition sql_eq (coll : ascii -> ascii) (v : option string) (x : string) : sql_bool :=
  match v with
  | None => None
  | Some s => Some (String.eqb (collation_key coll s) (collation_key coll x))
  end.

Definition sql_or (a b : sql_bool) : sql_bool :=
  match a, b with
  | Some true, _ | _, Some true => Some true
  | Some false, Some false => Some false
  | _, _ => None
  end.

Definition sql_and (a b : sql_bool) : sql_bool :=
  match a, b with
  | Some false, _ | _, Some false => Some false
  | Some true, Some true => Some true
  | _, _ => None
  end.

(** WHERE keeps the rows whose condition is TRUE. *)
Definition where_ (c : sql_bool) : bool :=
  match c with Some true => true | _ => false end.

(** *** The SELECT statements of routes/search.js

    Each constructor is one statement text with its bound parameter(s): every
    [?] of a statement receives the same [searchTerm], and [SelectSkills]
    carries the [category] parameter when the text has the extra
    [AND category = ?]. *)
Inductive Query :=
| SelectProfile (searchTerm : string)
| SelectSkills (searchTerm : string) (category : option string)
| SelectProjects (searchTerm : string)
| SelectWork (searchTerm : string).

(** SELECT 'profile' as type, name as title, email as description,
           'Profile Information' as category, id *)
Definition profile_result (r : ProfileRow) : ResultRow :=
  {| type := "profile"; title := profile_name r;
     description := Some (profile_email r);
     category := Some "Profile Information"; id := profile_id r |}.

(** WHERE name LIKE ? OR email LIKE ? OR education LIKE ? *)
Definition profile_where (coll : ascii -> ascii) (searchTerm : string) (r : ProfileRow) : sql_bool :=
  sql_or (sql_or (sql_like coll (Some (profile_name r)) searchTerm)
                 (sql_like coll (Some (profile_email r)) searchTerm))
         (sql_like coll (profile_education r) searchTerm).

(** CASE WHEN proficiency = 5 THEN ... ELSE 'Basic level' END *)
Definition proficiency_level (p : option Z) : string :=
  match p with
  | Some 5%Z => "Expert level"
  | Some 4%Z => "Advanced level"
  | Some 3%Z => "Intermediate level"
  | Some 2%Z => "Beginner level"
  | _ => "Basic level"
  end.

Definition skill_result (r : SkillRow) : ResultRow :=
  {| type := "skill"; title := skill_name r;
     description := Some (proficiency_level (skill_proficiency r));
     category := skill_category r; id := skill_id r |}.

(** WHERE name LIKE ? OR category LIKE ?   [AND category = ?]

    The optional third condition is appended to the text after the OR; AND
    binds tighter than OR in SQL, so the statement with a category reads
    [name LIKE ? OR (category LIKE ? AND category = ?)]. *)
Definition skill_where (coll : ascii -> ascii) (searchTerm : string)
    (cat : option string) (r : SkillRow) : sql_bool :=
  match cat with
  | None =>
      sql_or (sql_like coll (Some (skill_name r)) searchTerm)
             (sql_like coll (skill_category r) searchTerm)
  | Some c =>
      sql_or (sql_like coll (Some (skill_name r)) searchTerm)
             (sql_and (sql_like coll (skill_category r) searchTerm)
                      (sql_eq coll (skill_category r) c))
  end.

(** SELECT 'project' as type, title, description, 'Project' as category, id *)
Definition project_result (r : ProjectRow) : ResultRow :=
  {| type := "project"; title := project_title r;
     description := project_description r;
     category := Some "Project"; id := project_id r |}.

(** WHERE title LIKE ? OR description LIKE ? *)
Definition project_where (coll : ascii -> ascii) (searchTerm : string) (r : ProjectRow) : sql_bool :=
  sql_or (sql_like coll (Some (project_title r)) searchTerm)
         (sql_like coll (project_description r) searchTerm).

(** SELECT 'work' as type, position as title,
           company || ' - ' || COALESCE(description, '') as description,
           'Work Experience' as category, id
    with [||] read as string concatenation; no statement below depends on
    the description of a work row. *)
Definition work_result (r : WorkRow) : ResultRow :=
  {| type := "work"; title := work_position r;
     description :=
       Some (String.append (work_company r)
               (String.append " - "
                  match work_description r with Some d => d | None => EmptyString end));
     category := Some "Work Experience"; id := work_id r |}.

(** WHERE company LIKE ? OR position LIKE ? OR description LIKE ? *)
Definition work_where (coll : ascii -> ascii) (searchTerm : string) (r : WorkRow) : sql_bool :=
  sql_or (sql_or (sql_like coll (Some (work_company r)) searchTerm)
                 (sql_like coll (Some (work_position r)) searchTerm))
         (sql_like coll (work_description r) searchTerm).

(** The rows a statement returns, in the order the table holds them. *)
Definition run_query (coll : ascii -> ascii) (st : Store) (qy : Query) : list ResultRow :=
  match qy with
  | SelectProfile t =>
      map profile_result (filter (fun r => where_ (profile_where coll t r)) (profile st))
  | SelectSkills t c =>
      map skill_result (filter (fun r => where_ (skill_where coll t c r)) (skills st))
  | SelectProjects t =>
      map project_result (filter (fun r => where_ (project_where coll t r)) (projects st))
  | SelectWork t =>
      map work_result (filter (fun r => where_ (work_where coll t r)) (work_experience st))
  end.

(** The entity a statement reads. *)
Definition query_entity (qy : Query) : string :=
  match qy with
  | SelectProfile _ => "profile"
  | SelectSkills _ _ => "skill"
  | SelectProjects _ => "project"
  | SelectWork _ => "work"
  end.

(** [id] is the key of a row of the table of entity [ty]. *)
Definition resolves (st : Store) (ty : string) (i : Z) : Prop :=
  (ty = "profile" /\ exists r, In r (profile st) /\ profile_id r = i) \/
  (ty = "skill" /\ exists r, In r (skills st) /\ skill_id r = i) \/
  (ty = "project" /\ exists r, In r (projects st) /\ project_id r = i) \/
  (ty = "work" /\ exists r, In r (work_experience st) /\ work_id r = i).

End SQL.

(* ===================================================================== *)
(** ** The route handlers *)
(* ===================================================================== *)

Module Search.
Import SQL.

(** The database handle of database/db.js as a handler sees it: the tables,
    the collation the server compares text with, and which calls of the
    request (counted from 0) find the database unreachable. *)
Record Db := {
  store : Store;
  collation : ascii -> ascii;
  fails : nat -> bool }.

(** An async computation that awaits [db.all]: it extends the log of the
    queries issued so far and either returns or throws. *)
Inductive Outcome (A : Type) :=
| Returned (a : A)
| Thrown.
Arguments Returned {A} a.
Arguments Thrown {A}.

Definition Async (A : Type) : Type := list Query -> Outcome A * list Query.

Definition ret {A : Type} (a : A) : Async A := fun log => (Returned a, log).

Definition bind {A B : Type} (m : Async A) (k : A -> Async B) : Async B :=
  fun log =>
    match m log with
    | (Returned a, log') => k a log'
    | (Thrown, log') => (Thrown, log')
    end.

Notation "x <- m ;; k" := (bind m (fun x => k))
  (at level 61, m at next level, right associativity).

(** [await db.all(sql, params)] *)
Definition db_all (db : Db) (qy : Query) : Async (list ResultRow) :=
  fun log =>
    if fails db (List.length log) then (Thrown, log ++ [qy])
    else (Returned (run_query (collation db) (store db) qy), log ++ [qy]).

(** [req.query], parsed: the four parameters the handlers destructure. *)
Record ReqQuery := {
  req_q : option string;
  req_type : option string;
  req_category : option string;
  req_limit : option string }.

Inductive Body :=
| ErrorBody (error message : string)
| SearchBody (success : bool) (query : string) (count : nat) (data : list ResultRow)
| AdvancedBody (success : bool) (query type category : string) (count : nat)
    (data : list ResultRow).

(** [res.status(s).json(body)]; [res.json(body)] answers with status 200. *)
Record Response := {
  status : Z;
  body : Body }.

Definition resp_data (r : Response) : list ResultRow :=
  match body r with
  | ErrorBody _ _ => []
  | SearchBody _ _ _ d => d
  | AdvancedBody _ _ _ _ _ d => d
  end.

Definition resp_count (r : Response) : option nat :=
  match body r with
  | ErrorBody _ _ => None
  | SearchBody _ _ c _ => Some c
  | AdvancedBody _ _ _ _ c _ => Some c
  end.

(** [try { ... } catch (error) { res.status(500).json(...) }], run from an
    empty query log: the response sent and the queries issued. *)
Definition try_catch (body : Async Response) (on_error : Response) : Response * list Query :=
  match body [] with
  | (Returned r, log) => (r, log)
  | (Thrown, log) => (on_error, log)
  end.

Definition invalid_query : Response :=
  {| status := 400;
     body := ErrorBody "Invalid search query"
                       "Search query must be at least 2 characters long" |}.

Definition invalid_type : Response :=
  {| status := 400;
     body := ErrorBody "Invalid type filter"
                       "Type must be one of: profile, skill, project, work" |}.

Definition internal_error (message : string) : Response :=
  {| status := 500; body := ErrorBody "Internal server error" message |}.

(** [`%${query.trim()}%`] *)
Definition searchTerm (query : string) : string :=
  String.append "%" (String.append (JS.trim query) "%").

(** [a.title.toLowerCase() === query.toLowerCase()] *)
Definition exact (query : string) (a : ResultRow) : bool :=
  String.eqb (JS.toLowerCase (title a)) (JS.toLowerCase query).

(** [a.title.toLowerCase().indexOf(query.toLowerCase())] *)
Definition position (query : string) (a : ResultRow) : Z :=
  JS.indexOf (JS.toLowerCase (title a)) (JS.toLowerCase query).

(** The comparator handed to [allResults.sort]. *)
Definition relevance (query : string) (a b : ResultRow) : Z :=
  let aExact := exact query a in
  let bExact := exact query b in
  if aExact && negb bExact then (-1)%Z
  else if negb aExact && bExact then 1%Z
  else (position query a - position query b)%Z.

(** The four queries of the basic search and their merge,
    [[...profileResults, ...skillResults, ...projectResults, ...workResults]]. *)
Definition allResults (db : Db) (term : string) : Async (list ResultRow) :=
  profileResults <- db_all db (SelectProfile term) ;;
  skillResults <- db_all db (SelectSkills term None) ;;
  projectResults <- db_all db (SelectProjects term) ;;
  workResults <- db_all db (SelectWork term) ;;
  ret (profileResults ++ skillResults ++ projectResults ++ workResults).

(** GET /api/search *)
Definition search_body (db : Db) (req : ReqQuery) : Async Response :=
  match req_q req with
  | None => ret invalid_query
  | Some query =>
      if String.eqb query EmptyString || (String.length (JS.trim query) <? 2)%nat
      then ret invalid_query
      else
        merged <- allResults db (searchTerm query) ;;
        let sorted := JS.sort (relevance query) merged in
        ret {| status := 200;
               body := SearchBody true (JS.trim query) (List.length sorted) sorted |}
  end.

Definition search (db : Db) (req : ReqQuery) : Response * list Query :=
  try_catch (search_body db req) (internal_error "Failed to perform search").

(** [['profile', 'skill', 'project', 'work'].includes(type)] *)
Definition valid_types : list string := ["profile"; "skill"; "project"; "work"].

Definition includes (l : list string) (x : string) : bool :=
  existsb (String.eqb x) l.

(** [!type || type === name] *)
Definition wants (ty : option string) (name : string) : bool :=
  negb (JS.truthy ty)
  || match ty with Some t => String.eqb t name | None => false end.

(** [v || 'all'] *)
Definition or_all (v : option string) : string :=
  match v with
  | Some s => if JS.truthy v then s else "all"
  | None => "all"
  end.

(** [parseInt(limit)], where [limit] defaults to the number 20 when the
    parameter is undefined. *)
Definition parsed_limit (limit : option string) : option Z :=
  match limit with
  | None => Some 20%Z
  | Some s => JS.parseInt s
  end.

(** One [if (!type || type === name) { results.push(...await db.all(..)) }]. *)
Definition branch (db : Db) (ty : option string) (name : string) (qy : Query)
    (results : list ResultRow) : Async (list ResultRow) :=
  if wants ty name
  then rows <- db_all db qy ;; ret (results ++ rows)
  else ret results.

(** GET /api/search/advanced *)
Definition search_advanced_body (db : Db) (req : ReqQuery) : Async Response :=
  let ty := req_type req in
  let cat := req_category req in
  match req_q req with
  | None => ret invalid_query
  | Some query =>
      if String.eqb query EmptyString || (String.length (JS.trim query) <? 2)%nat
      then ret invalid_query
      else
        let term := searchTerm query in
        let results := [] in
        if JS.truthy ty
           && negb (match ty with Some t => includes valid_types t | None => false end)
        then ret invalid_type
        else
          results <- branch db ty "profile" (SelectProfile term) results ;;
          results <- branch db ty "skill"
                       (SelectSkills term (if JS.truthy cat then cat else None))
                       results ;;
          results <- branch db ty "project" (SelectProjects term) results ;;
          results <- branch db ty "work" (SelectWork term) results ;;
          let results := JS.slice0 results (parsed_limit (req_limit req)) in
          ret {| status := 200;
                 body := AdvancedBody true (JS.trim query) (or_all ty) (or_all cat)
                           (List.length results) results |}
  end.

Definition search_advanced (db : Db) (req : ReqQuery) : Response * list Query :=
  try_catch (search_advanced_body db req)
            (internal_error "Failed to perform advanced search").

(** The rows the database holds for a list of queries, query after query. *)
Definition rows_of (db : Db) (log : list Query) : list ResultRow :=
  flat_map (run_query (collation db) (store db)) log.

(** The four statements of the advanced search, in the order of the source,
    and those of them that the type filter lets through. *)
Definition advanced_queries (req : ReqQuery) (query : string) : list Query :=
  [ SelectProfile (searchTerm query);
    SelectSkills (searchTerm query)
      (if JS.truthy (req_category req) then req_category req else None);
    SelectProjects (searchTerm query);
    SelectWork (searchTerm query) ].

Definition admitted (req : ReqQuery) (query : string) : list Query :=
  filter (fun qy => wants (req_type req) (query_entity qy)) (advanced_queries req query).

(** A database that answers every query of the request. *)
Definition reachable (db : Db) : Prop := forall n, fails db n = false.

(** The query passes the length check of both handlers. *)
Definition query_ok (q : option string) : bool :=
  match q with
  | None => false
  | Some query =>
      negb (String.eqb query EmptyString || (String.length (JS.trim query) <? 2)%nat)
  end.

End Search.

(* ===================================================================== *)
(** ** Sample data *)
(* ===================================================================== *)

Module Sample.
Import SQL Search.

(** The key of a case-insensitive collation. *)
Definition ci : ascii -> ascii := JS.lowerChar.

Definition st : Store :=
  {| profile :=
       [ {| profile_id := 1; profile_name := "Joshua";
            profile_email := "joshua@example.com";
            profile_education := Some "B.Tech, Computer Science" |} ];
     skills :=
       [ {| skill_id := 1; skill_name := "Python"; skill_proficiency := Some 5%Z;
            skill_category := Some "Data Science" |};
         {| skill_id := 2; skill_name := "Node.js"; skill_proficiency := Some 4%Z;
            skill_category := Some "Backend" |};
         {| skill_id := 3; skill_name := "React"; skill_proficiency := Some 3%Z;
            skill_category := Some "Frontend" |} ];
     projects :=
       [ {| project_id := 1; project_title := "React Native";
            project_description := Some "Mobile client" |};
         {| project_id := 2; project_title := "React";
            project_description := None |} ];
     work_experience :=
       [ {| work_id := 1; work_company := "Acme"; work_position := "Python Developer";
            work_description := Some "Backend services" |} ] |}.

(** A reachable database over [st]. *)
Definition db : Db := {| store := st; collation := ci; fails := fun _ => false |}.

(** The same tables behind a database that is down. *)
Definition db_down : Db := {| store := st; collation := ci; fails := fun _ => true |}.

Definition request (q ty cat lim : option string) : ReqQuery :=
  {| req_q := q; req_type := ty; req_category := cat; req_limit := lim |}.

End Sample.

(* ===================================================================== *)
(** ** Reference notions for the search routes *)
(* ===================================================================== *)

Module Reference.
Import SQL Search.

(** Awaiting the queries of a list one after the other and appending each
    result to [results]; the first call that throws ends the run. *)
Fixpoint issue (db : Db) (qs : list Query) (results : list ResultRow)
    : Async (list ResultRow) :=
  match qs with
  | [] => ret results
  | qy :: qs' => rows <- db_all db qy ;; issue db qs' (results ++ rows)
  end.

(** The four statements of the basic search, in the order of the source. *)
Definition basic_queries (query : string) : list Query :=
  [ SelectProfile (searchTerm query); SelectSkills (searchTerm query) None;
    SelectProjects (searchTerm query); SelectWork (searchTerm query) ].

(** The type parameter passes the check of the advanced search. *)
Definition type_ok (ty : option string) : bool :=
  negb (JS.truthy ty
        && negb (match ty with Some t => includes valid_types t | None => false end)).

Fixpoint all_chars (p : ascii -> bool) (s : string) : bool :=
  match s with
  | EmptyString => true
  | String c s' => p c && all_chars p s'
  end.

(** The characters LIKE gives a meaning to. *)
Definition is_wildcard (c : ascii) : bool :=
  Ascii.eqb c "\" || Ascii.eqb c "%" || Ascii.eqb c "_".

Definition plain (s : string) : bool := all_chars (fun c => negb (is_wildcard c)) s.

Definition only_percent (s : string) : bool := all_chars (fun c => Ascii.eqb c "%") s.

(** The column value [v] is not NULL and has a substring equal to [q] up to
    the collation. *)
Definition occurs (coll : ascii -> ascii) (q : string) (v : option string) : Prop :=
  exists s pre mid post,
    v = Some s /\ s = String.append pre (String.append mid post)
    /\ collation_key coll mid = collation_key coll q.

(** Every row of the four tables, projected, table after table. *)
Definition every_row (st : Store) : list ResultRow :=
  map profile_result (profile st) ++ map skill_result (skills st)
  ++ map project_result (projects st) ++ map work_result (work_experience st).

End Reference.

(* ===================================================================== *)
(** ** database/db.js: the connection pool and the query helpers *)
(* ===================================================================== *)

Module Database.

(** The text of a statement and its bound parameters. *)
Definition Statement : Type := string * list string.

(** The pool object: the connections handed out and not yet released, and
    whether [end()] has completed on it. *)
Record PoolState := {
  busy : nat;
  ended : bool }.

Inductive ConsoleEntry :=
| ConsoleLog (text : string)
| ConsoleWarn (text detail : string)
| ConsoleError (text detail : string).

(** What the module and its environment hold: the module variable [pool]
    (undefined = [None]), the number of driver calls made so far, the
    statements sent to the server and the console. *)
Record World := {
  pool : option PoolState;
  clock : nat;
  sent : list Statement;
  console : list ConsoleEntry }.

Definition tick (w : World) : World :=
  {| pool := pool w; clock := S (clock w); sent := sent w; console := console w |}.

Definition with_pool (p : option PoolState) (w : World) : World :=
  {| pool := p; clock := clock w; sent := sent w; console := console w |}.

Definition send (st : Statement) (w : World) : World :=
  {| pool := pool w; clock := clock w; sent := sent w ++ [st]; console := console w |}.

Definition print (e : ConsoleEntry) (w : World) : World :=
  {| pool := pool w; clock := clock w; sent := sent w; console := console w ++ [e] |}.

Definition checkout (p : PoolState) : PoolState :=
  {| busy := S (busy p); ended := ended p |}.

Definition checkin (p : PoolState) : PoolState :=
  {| busy := Nat.pred (busy p); ended := ended p |}.

Inductive Result (A : Type) :=
| Ok (a : A)
| Throw (message : string).
Arguments Ok {A} a.
Arguments Throw {A} message.

(** An async function of the module. *)
Definition IO (A : Type) : Type := World -> Result A * World.

Definition ret {A : Type} (a : A) : IO A := fun w => (Ok a, w).

Definition bind {A B : Type} (m : IO A) (k : A -> IO B) : IO B :=
  fun w =>
    match m w with
    | (Ok a, w') => k a w'
    | (Throw message, w') => (Throw message, w')
    end.

Notation "x <~ m ;; k" := (bind m (fun x => k))
  (at level 61, m at next level, right associativity).

(** [try { body } finally { cleanup }] *)
Definition finally {A : Type} (body : IO A) (cleanup : World -> World) : IO A :=
  fun w => let (r, w') := body w in (r, cleanup w').

(** [{ id: result.insertId, changes: result.affectedRows }] *)
Record RunResult := {
  run_id : Z;
  run_changes : Z }.

(** [String.prototype.split] with a one-character separator. *)
Fixpoint split (sep : ascii) (s : string) : list string :=
  match s with
  | EmptyString => [EmptyString]
  | String c s' =>
      if Ascii.eqb c sep then EmptyString :: split sep s'
      else match split sep s' with
           | [] => [String c EmptyString]
           | piece :: pieces => String c piece :: pieces
           end
  end.

(** [Array.prototype.join] with a one-character separator. *)
Fixpoint join (sep : ascii) (pieces : list string) : string :=
  match pieces with
  | [] => EmptyString
  | [piece] => piece
  | piece :: rest => String.append piece (String sep (join sep rest))
  end.

(** [message.includes(text)] *)
Definition includes_text (message text : string) : bool :=
  (0 <=? JS.indexOf message text)%Z.

(** [process.env.DB_NAME || 'me_api_playground'] *)
Definition database (DB_NAME : option string) : string :=
  match DB_NAME with
  | Some name => if JS.truthy DB_NAME then name else "me_api_playground"
  | None => "me_api_playground"
  end.

Definition schema : string := "
CREATE TABLE IF NOT EXISTS profile (
    id INT AUTO_INCREMENT PRIMARY KEY,
    name VARCHAR(255) NOT NULL,
    email VARCHAR(255) UNIQUE NOT NULL,
    education TEXT,
    github VARCHAR(500),
    linkedin VARCHAR(500),
    portfolio VARCHAR(500),
    created_at TIMESTAMP DEFAULT CURRENT_TIMESTAMP,
    updated_at TIMESTAMP DEFAULT CURRENT_TIMESTAMP ON UPDATE CURRENT_TIMESTAMP
);

CREATE TABLE IF NOT EXISTS skills (
    id INT AUTO_INCREMENT PRIMARY KEY,
    name VARCHAR(255) UNIQUE NOT NULL,
    proficiency INT CHECK(proficiency >= 1 AND proficiency <= 5),
    category VARCHAR(100),
    created_at TIMESTAMP DEFAULT CURRENT_TIMESTAMP
);

CREATE TABLE IF NOT EXISTS projects (
    id INT AUTO_INCREMENT PRIMARY KEY,
    title VARCHAR(255) NOT NULL,
    description TEXT,
    github_link VARCHAR(500),
    live_link VARCHAR(500),
    created_at TIMESTAMP DEFAULT CURRENT_TIMESTAMP,
    updated_at TIMESTAMP DEFAULT CURRENT_TIMESTAMP ON UPDATE CURRENT_TIMESTAMP
);

CREATE TABLE IF NOT EXISTS project_skills (
    project_id INT,
    skill_id INT,
    FOREIGN KEY (project_id) REFERENCES projects(id) ON DELETE CASCADE,
    FOREIGN KEY (skill_id) REFERENCES skills(id) ON DELETE CASCADE,
    PRIMARY KEY (project_id, skill_id)
);

CREATE TABLE IF NOT EXISTS work_experience (
    id INT AUTO_INCREMENT PRIMARY KEY,
    company VARCHAR(255) NOT NULL,
    position VARCHAR(255) NOT NULL,
    description TEXT,
    start_date DATE,
    end_date DATE,
    current BOOLEAN DEFAULT FALSE,
    created_at TIMESTAMP DEFAULT CURRENT_TIMESTAMP
);

-- Create indexes for better query performance
CREATE INDEX IF NOT EXISTS idx_skills_name ON skills(name);
CREATE INDEX IF NOT EXISTS idx_skills_category ON skills(category);
CREATE INDEX IF NOT EXISTS idx_projects_title ON projects(title);
CREATE INDEX IF NOT EXISTS idx_project_skills_project ON project_skills(project_id);
CREATE INDEX IF NOT EXISTS idx_project_skills_skill ON project_skills(skill_id);
".

(** [schema.split(';').filter(stmt => stmt.trim())] *)
Definition statements (text : string) : list string :=
  filter (fun stmt => JS.truthy (Some (JS.trim stmt))) (split ";" text).

Section Driver.

Variable Row : Type.

(** mysql2 as the module calls it.  Each field says what the driver call
    number [n] of the run does: [getConnection] rejects with a message or
    hands out a connection; [connection.query] rejects or returns rows;
    [connection.execute] rejects or returns [(insertId, affectedRows)];
    [pool.end] rejects or completes. *)
Record Driver := {
  on_connect : nat -> option string;
  on_query : nat -> Statement -> string + list Row;
  on_execute : nat -> Statement -> string + (Z * Z);
  on_end : nat -> option string }.

Variable drv : Driver.

Definition getPool : IO unit :=
  fun w =>
    match pool w with
    | None => (Throw "Database not initialized. Call initialize() first.", w)
    | Some _ => (Ok tt, w)
    end.

(** [await pool.getConnection()] *)
Definition getConnection : IO unit :=
  fun w =>
    match on_connect drv (clock w) with
    | Some message => (Throw message, tick w)
    | None => (Ok tt, tick (with_pool (option_map checkout (pool w)) w))
    end.

(** [connection.release()] *)
Definition release (w : World) : World :=
  with_pool (option_map checkin (pool w)) w.

(** [await connection.query(sql, params)] *)
Definition query (st : Statement) : IO (list Row) :=
  fun w =>
    match on_query drv (clock w) st with
    | inl message => (Throw message, tick (send st w))
    | inr rows => (Ok rows, tick (send st w))
    end.

(** [await connection.execute(sql, params)] *)
Definition execute (st : Statement) : IO (Z * Z) :=
  fun w =>
    match on_execute drv (clock w) st with
    | inl message => (Throw message, tick (send st w))
    | inr result => (Ok result, tick (send st w))
    end.

Definition run (sql : string) (params : list string) : IO RunResult :=
  _ <~ getPool ;;
  _ <~ getConnection ;;
  finally (result <~ execute (sql, params) ;;
           ret {| run_id := fst result; run_changes := snd result |})
          release.

(** [rows[0] || null]: a row object is truthy, so this is the first row
    when there is one. *)
Definition get (sql : string) (params : list string) : IO (option Row) :=
  _ <~ getPool ;;
  _ <~ getConnection ;;
  finally (rows <~ query (sql, params) ;; ret (hd_error rows)) release.

Definition all (sql : string) (params : list string) : IO (list Row) :=
  _ <~ getPool ;;
  _ <~ getConnection ;;
  finally (rows <~ query (sql, params) ;; ret rows) release.

Definition close : IO unit :=
  fun w =>
    match pool w with
    | None => (Ok tt, w)
    | Some p =>
        match on_end drv (clock w) with
        | Some message => (Throw message, tick w)
        | None =>
            (Ok tt,
             print (ConsoleLog "Database connection closed.")
               (tick (with_pool (Some {| busy := busy p; ended := true |}) w)))
        end
    end.

(** One turn of the loop over the schema statements: the inner [try]
    catches what the statement throws and at most prints a warning. *)
Definition create_statement (statement : string) : IO unit :=
  if JS.truthy (Some (JS.trim statement)) then
    fun w =>
      match query (statement, []) w with
      | (Ok _, w') => (Ok tt, w')
      | (Throw message, w') =>
          if negb (includes_text message "Duplicate key name")
          then (Ok tt, print (ConsoleWarn "Warning creating table/index:" message) w')
          else (Ok tt, w')
      end
  else ret tt.

Fixpoint create_schema (sts : list string) : IO unit :=
  match sts with
  | [] => ret tt
  | statement :: rest => _ <~ create_statement statement ;; create_schema rest
  end.

Definition initialize (DB_NAME : option string) : IO unit :=
  fun w =>
    match
      (_ <~ (fun w => (Ok tt, with_pool (Some {| busy := 0; ended := false |}) w)) ;;
       _ <~ getConnection ;;
       _ <~ (fun w => (Ok tt, print (ConsoleLog "MySQL connection established successfully") w)) ;;
       _ <~ query (String.append "CREATE DATABASE IF NOT EXISTS " (database DB_NAME), []) ;;
       _ <~ query (String.append "USE " (database DB_NAME), []) ;;
       _ <~ create_schema (statements schema) ;;
       _ <~ (fun w => (Ok tt, release w)) ;;
       fun w => (Ok tt, print (ConsoleLog "Database schema initialized successfully") w)) w
    with
    | (Ok u, w') => (Ok u, w')
    | (Throw message, w') =>
        (Throw message, print (ConsoleError "Error initializing database:" message) w')
    end.

End Driver.

End Database.

Module SampleDriver.
Import Database.

(** A server that accepts every connection and answers every statement
    with no rows. *)
Definition up : Driver SQL.ResultRow :=
  {| on_connect := fun _ => None;
     on_query := fun _ _ => inr [];
     on_execute := fun _ _ => inr (1%Z, 1%Z);
     on_end := fun _ => None |}.

(** A server that refuses connections. *)
Definition refusing : Driver SQL.ResultRow :=
  {| on_connect := fun _ => Some "connect ECONNREFUSED";
     on_query := fun _ _ => inl "connect ECONNREFUSED";
     on_execute := fun _ _ => inl "connect ECONNREFUSED";
     on_end := fun _ => None |}.

(** A server on which every statement but CREATE DATABASE and USE fails. *)
Definition rejecting : Driver SQL.ResultRow :=
  {| on_connect := fun _ => None;
     on_query := fun n _ => if (n <=? 2)%nat then inr [] else inl "syntax error";
     on_execute := fun _ _ => inl "syntax error";
     on_end := fun _ => None |}.

(** The module right after it is loaded. *)
Definition fresh : World :=
  {| pool := None; clock := 0; sent := []; console := [] |}.

(** The module with an idle pool. *)
Definition ready : World :=
  {| pool := Some {| busy := 0; ended := false |}; clock := 0; sent := [];
     console := [] |}.

End SampleDriver.

(* ===================================================================== *)
(** ** Occurrences of a string in a string *)
(* ===================================================================== *)

Module Occurrence.

(** [t] occurs in [s] at the zero-based index [i]: [i] characters of [s]
    come before a copy of [t]. *)
Definition occurs_at (s t : string) (i : nat) : Prop :=
  exists pre post,
    s = String.append pre (String.append t post) /\ String.length pre = i.

(** [i] is the index of the first occurrence of [t] in [s]. *)
Definition first_at (s t : string) (i : nat) : Prop :=
  occurs_at s t i /\ forall k, (k < i)%nat -> ~ occurs_at s t k.

(** [t] occurs nowhere in [s]. *)
Definition nowhere (s t : string) : Prop := forall k, ~ occurs_at s t k.

End Occurrence.

(* ===================================================================== *)
(** ** Query-string values that are not strings *)
(* ===================================================================== *)

Module Raw.
Import SQL Search.

(** What [req.query.q] can be: undefined, a string, or the array or object
    that a repeated ([q=ab&q=cd]) or bracketed ([q[k]=v]) key is parsed
    into. *)
Inductive Param :=
| Absent
| Text (s : string)
| Structured.

Definition text (q : Param) : option string :=
  match q with
  | Text s => Some s
  | Absent | Structured => None
  end.

(** The other three parameters, read as strings. *)
Definition with_q (q : Param) (req : ReqQuery) : ReqQuery :=
  {| req_q := text q; req_type := req_type req;
     req_category := req_category req; req_limit := req_limit req |}.

(** An array or object is truthy, so [!query] is false, and it has no
    callable [trim]: [query.trim()], the first thing the [try] block
    evaluates after [!query], throws a TypeError before any query. *)
Definition trim_throws : Async Response := fun log => (Thrown, log).

(** GET /api/search for a [q] of any shape. *)
Definition search_any (db : Db) (q : Param) (req : ReqQuery) : Response * list Query :=
  match q with
  | Structured => try_catch trim_throws (internal_error "Failed to perform search")
  | Absent | Text _ => search db (with_q q req)
  end.

(** GET /api/search/advanced for a [q] of any shape. *)
Definition search_advanced_any (db : Db) (q : Param) (req : ReqQuery)
    : Response * list Query :=
  match q with
  | Structured =>
      try_catch trim_throws (internal_error "Failed to perform advanced search")
  | Absent | Text _ => search_advanced db (with_q q req)
  end.

End Raw.

(* ===================================================================== *)
(** ** Checks of the runtime model on concrete values *)
(* ===================================================================== *)

Example trim_ex : JS.trim (String (ascii_of_nat 9) "  ab c " ++ String (ascii_of_nat 10) EmptyString) = "ab c".
Proof. reflexivity. Qed.

Example indexOf_ex :
  JS.indexOf "react native" "native" = 6%Z /\ JS.indexOf "react" "vue" = (-1)%Z
  /\ JS.indexOf EmptyString EmptyString = 0%Z.
Proof. repeat split. Qed.

Example parseInt_ex :
  JS.parseInt " 12px" = Some 12%Z /\ JS.parseInt "-3" = Some (-3)%Z
  /\ JS.parseInt "0x1f" = Some 31%Z /\ JS.parseInt "abc" = None
  /\ JS.parseInt EmptyString = None /\ JS.parseInt "0x" = None.
Proof. repeat split. Qed.

Example slice0_ex :
  JS.slice0 [1;2;3] (Some 2%Z) = [1;2] /\ JS.slice0 [1;2;3] None = []
  /\ JS.slice0 [1;2;3] (Some (-1)%Z) = [1;2] /\ JS.slice0 [1;2;3] (Some 20%Z) = [1;2;3].
Proof. repeat split. Qed.

Example toLowerCase_ex : JS.toLowerCase "React Native" = "react native".
Proof. reflexivity. Qed.

Example like_ex :
  SQL.like_match Sample.ci (SQL.like_tokens "%react%") "My React app" = true
  /\ SQL.like_match Sample.ci (SQL.like_tokens "%re_ct%") "React" = true
  /\ SQL.like_match Sample.ci (SQL.like_tokens "%vue%") "React" = false
  /\ SQL.like_match (fun c => c) (SQL.like_tokens "%react%") "React" = false.
Proof. repeat split. Qed.

Example search_ex :
  map SQL.title (Search.resp_data (fst (Search.search Sample.db
        (Sample.request (Some "python") None None None))))
  = ["Python"; "Python Developer"].
Proof. reflexivity. Qed.

Example search_down_ex :
  Search.search Sample.db_down (Sample.request (Some "python") None None None)
  = (Search.internal_error "Failed to perform search", [SQL.SelectProfile "%python%"]).
Proof. reflexivity. Qed.

(* ===================================================================== *)
(** ** indexOf returns the first occurrence *)
(* ===================================================================== *)

Section IndexOf.

Lemma indexOf_unfold (s t : string) :
  JS.indexOf s t =
    if String.prefix t s then 0%Z
    else match s with
         | EmptyString => (-1)%Z
         | String _ s' =>
             if (JS.indexOf s' t <? 0)%Z then (-1)%Z else (JS.indexOf s' t + 1)%Z
         end.
Proof.
  destruct s; reflexivity.
Qed.

Lemma indexOf_lower_bound (s t : string) : (-1 <= JS.indexOf s t)%Z.
Proof.
  induction s as [|c s IH]; rewrite indexOf_unfold.
  - destruct (String.prefix t EmptyString); lia.
  - destruct (String.prefix t (String c s)); [lia|].
    destruct (Z.ltb_spec (JS.indexOf s t) 0); lia.
Qed.

(** A non-negative result is the length of the shortest prefix of [s] after
    which [t] occurs. *)
Lemma indexOf_first_occurrence (s t : string) (i : nat) :
  JS.indexOf s t = Z.of_nat i ->
  exists pre rest,
    s = String.append pre rest /\ String.length pre = i
    /\ String.prefix t rest = true
    /\ forall pre' rest',
         s = String.append pre' rest' -> (String.length pre' < i)%nat ->
         String.prefix t rest' = false.
Proof.
  revert i. induction s as [|c s IH]; intros i; rewrite indexOf_unfold.
  - destruct (String.prefix t EmptyString) eqn:Hp; [|intros; lia].
    intros Hi. assert (i = 0)%nat as -> by lia.
    exists EmptyString, EmptyString. repeat split; trivial.
    intros pre' rest' _ Hlt. lia.
  - destruct (String.prefix t (String c s)) eqn:Hp.
    + intros Hi. assert (i = 0)%nat as -> by lia.
      exists EmptyString, (String c s). repeat split; trivial.
      intros pre' rest' _ Hlt. lia.
    + destruct (Z.ltb_spec (JS.indexOf s t) 0) as [Hneg | Hpos]; [intros; lia|].
      intros Hi. destruct i as [|i]; [lia|].
      destruct (IH i) as (pre & rest & Hs & Hlen & Hpre & Hmin); [lia|].
      exists (String c pre), rest. simpl. repeat split; try congruence.
      intros pre' rest' Hsplit Hlt.
      destruct pre' as [|c' pre']; simpl in Hsplit.
      * now rewrite <- Hsplit.
      * inversion Hsplit; subst c'. apply (Hmin pre' rest'); trivial.
        simpl in Hlt. lia.
Qed.

(** The result is -1 only when [t] occurs nowhere in [s]. *)
Lemma indexOf_absent (s t : string) :
  JS.indexOf s t = (-1)%Z ->
  forall pre rest, s = String.append pre rest -> String.prefix t rest = false.
Proof.
  induction s as [|c s IH]; rewrite indexOf_unfold.
  - destruct (String.prefix t EmptyString) eqn:Hp; [discriminate|].
    intros _ pre rest Hs. destruct pre; simpl in Hs; [now subst|discriminate].
  - destruct (String.prefix t (String c s)) eqn:Hp; [discriminate|].
    pose proof (indexOf_lower_bound s t) as Hlow.
    destruct (Z.ltb_spec (JS.indexOf s t) 0) as [Hneg | Hpos]; [|intros; lia].
    intros _ pre rest Hs.
    destruct pre as [|c' pre]; simpl in Hs; [now subst|].
    inversion Hs; subst c'. apply (IH ltac:(lia) pre rest). assumption.
Qed.

End IndexOf.

(* ===================================================================== *)
(** ** indexOf against the definition of a first occurrence *)
(* ===================================================================== *)

Section FirstOccurrence.
Import Occurrence.

Lemma prefix_append (t s : string) :
  String.prefix t s = true <-> exists post, s = String.append t post.
Proof.
  revert s. induction t as [|c t IH]; intros s.
  - split; [intros _; now exists s | intros _; destruct s; reflexivity].
  - destruct s as [|d s]; simpl.
    + split; [discriminate | intros (post & H); discriminate].
    + destruct (ascii_dec c d) as [-> | Hne].
      * rewrite IH. split; intros (post & H); exists post; simpl in *; congruence.
      * split; [discriminate|]. intros (post & H). simpl in H. congruence.
Qed.

Lemma occurs_at_prefix (s t : string) (i : nat) :
  occurs_at s t i <->
  exists pre rest,
    s = String.append pre rest /\ String.length pre = i /\ String.prefix t rest = true.
Proof.
  unfold occurs_at. split.
  - intros (pre & post & -> & Hlen). exists pre, (String.append t post).
    repeat split; trivial. apply prefix_append. now exists post.
  - intros (pre & rest & -> & Hlen & Hp). apply prefix_append in Hp.
    destruct Hp as (post & ->). now exists pre, post.
Qed.

(** [indexOf] returns the index of the first occurrence when there is
    one. *)
Lemma indexOf_first_at (s t : string) (i : nat) :
  first_at s t i -> JS.indexOf s t = Z.of_nat i.
Proof.
  intros [Hocc Hmin].
  pose proof (indexOf_lower_bound s t) as Hlow.
  destruct (Z.eq_dec (JS.indexOf s t) (-1)) as [Habs | Hfound].
  - apply occurs_at_prefix in Hocc. destruct Hocc as (pre & rest & Hs & _ & Hp).
    rewrite (indexOf_absent s t Habs pre rest Hs) in Hp. discriminate.
  - assert (Hnat : JS.indexOf s t = Z.of_nat (Z.to_nat (JS.indexOf s t))) by lia.
    destruct (indexOf_first_occurrence s t _ Hnat) as (pre & rest & Hs & Hlen & Hp & Hmin').
    rewrite Hnat. f_equal.
    destruct (Nat.lt_trichotomy (Z.to_nat (JS.indexOf s t)) i) as [Hlt | [Heq | Hgt]];
      [|exact Heq|].
    + exfalso. apply (Hmin _ Hlt). apply occurs_at_prefix. now exists pre, rest.
    + exfalso. apply occurs_at_prefix in Hocc.
      destruct Hocc as (pre0 & rest0 & Hs0 & Hlen0 & Hp0).
      rewrite (Hmin' pre0 rest0 Hs0) in Hp0; [discriminate | lia].
Qed.

(** [indexOf] returns -1 when there is no occurrence. *)
Lemma indexOf_nowhere (s t : string) :
  nowhere s t -> JS.indexOf s t = (-1)%Z.
Proof.
  intros Hno.
  pose proof (indexOf_lower_bound s t) as Hlow.
  destruct (Z.eq_dec (JS.indexOf s t) (-1)) as [Habs | Hfound]; [exact Habs|].
  assert (Hnat : JS.indexOf s t = Z.of_nat (Z.to_nat (JS.indexOf s t))) by lia.
  destruct (indexOf_first_occurrence s t _ Hnat) as (pre & rest & Hs & Hlen & Hp & _).
  exfalso. apply (Hno (Z.to_nat (JS.indexOf s t))).
  apply occurs_at_prefix. now exists pre, rest.
Qed.

End FirstOccurrence.

(* ===================================================================== *)
(** ** Validation: what is rejected before any query *)
(* ===================================================================== *)

Section Validation.
Import SQL Search.

Variable db : Db.

Lemma query_ok_inv (q : option string) :
  query_ok q = true ->
  exists query, q = Some query /\
    (String.eqb query EmptyString || (String.length (JS.trim query) <? 2)%nat) = false.
Proof.
  destruct q as [query|]; simpl; [|discriminate].
  intros H. exists query. split; [reflexivity|].
  now apply negb_true_iff.
Qed.

Lemma short_query_rejected (query : string) :
  (String.length (JS.trim query) < 2)%nat ->
  (String.eqb query EmptyString || (String.length (JS.trim query) <? 2)%nat) = true.
Proof.
  intros H. apply orb_true_iff. right. now apply Nat.ltb_lt.
Qed.

(** C3. A request whose [q] is missing, or whose trimmed [q] has fewer than
    two characters, is answered 400 with an [{error, message}] body by both
    endpoints, and neither reaches a [db.all] call. *)
Theorem short_query_400_no_query (req : ReqQuery) :
  req_q req = None \/
  (exists query, req_q req = Some query /\ (String.length (JS.trim query) < 2)%nat) ->
  search db req =
    ({| status := 400;
        body := ErrorBody "Invalid search query"
                          "Search query must be at least 2 characters long" |}, [])
  /\ search_advanced db req =
    ({| status := 400;
        body := ErrorBody "Invalid search query"
                          "Search query must be at least 2 characters long" |}, []).
Proof.
  intros [Hq | (query & Hq & Hlen)];
    unfold search, search_advanced, search_body, search_advanced_body, try_catch;
    rewrite Hq.
  - split; reflexivity.
  - rewrite (short_query_rejected _ Hlen). split; reflexivity.
Qed.

(** Membership in the list of valid types, read back as one of four
    equalities. *)
Lemma includes_valid_types (t : string) :
  includes valid_types t = true ->
  t = "profile" \/ t = "skill" \/ t = "project" \/ t = "work".
Proof.
  unfold includes, valid_types. simpl.
  rewrite !orb_true_iff, !String.eqb_eq. intuition discriminate.
Qed.


End Validation.

(* ===================================================================== *)
(** ** Which queries the advanced search issues *)
(* ===================================================================== *)

Section TypeFilter.
Import SQL Search.

Variable db : Db.

Lemma db_all_reachable (qy : Query) (log : list Query) :
  reachable db ->
  db_all db qy log = (Returned (run_query (collation db) (store db) qy), log ++ [qy]).
Proof.
  intros Hup. unfold db_all. now rewrite Hup.
Qed.

(** A branch either skips its query or issues exactly that one. *)
Lemma branch_log (ty : option string) (name : string) (qy : Query)
    (results : list ResultRow) (log : list Query) :
  snd (branch db ty name qy results log) = if wants ty name then log ++ [qy] else log.
Proof.
  unfold branch, bind, db_all, ret.
  destruct (wants ty name); [|reflexivity].
  destruct (fails db (List.length log)); reflexivity.
Qed.

Lemma branch_reachable (ty : option string) (name : string) (qy : Query)
    (results : list ResultRow) (log : list Query) :
  reachable db ->
  branch db ty name qy results log =
    if wants ty name
    then (Returned (results ++ run_query (collation db) (store db) qy), log ++ [qy])
    else (Returned results, log).
Proof.
  intros Hup. unfold branch, bind, ret.
  destruct (wants ty name); [|reflexivity].
  now rewrite db_all_reachable.
Qed.

Lemma wants_absent (ty : option string) (name : string) :
  JS.truthy ty = false -> wants ty name = true.
Proof.
  intros H. unfold wants. now rewrite H.
Qed.

(** C4. For a request that passes the query check: with a valid type filter
    [t] exactly one query is issued, the one that reads entity [t], so none
    is issued for the other three; with no type filter (and a database that
    answers) the four queries are issued, in the order profile, skill,
    project, work. *)
Theorem type_filter_selects_queries (req : ReqQuery) :
  query_ok (req_q req) = true ->
  (forall t, req_type req = Some t -> includes valid_types t = true ->
     exists qy, snd (search_advanced db req) = [qy] /\ query_entity qy = t)
  /\ (JS.truthy (req_type req) = false -> reachable db ->
      map query_entity (snd (search_advanced db req))
      = ["profile"; "skill"; "project"; "work"]).
Proof.
  intros Hok. destruct (query_ok_inv _ Hok) as (query & Hq & Hlen).
  split.
  - intros t Hty Hin.
    unfold search_advanced, search_advanced_body, try_catch.
    rewrite Hq, Hlen, Hty.
    destruct (includes_valid_types _ Hin) as [-> | [-> | [-> | ->]]];
      unfold branch, bind, ret, db_all; cbn;
      destruct (fails db 0); cbn; eexists; split; reflexivity.
  - intros Hty Hup.
    unfold search_advanced, search_advanced_body, try_catch.
    rewrite Hq, Hlen, Hty. cbn [andb].
    unfold bind.
    repeat (rewrite branch_reachable by assumption;
            rewrite wants_absent by assumption; cbv beta iota).
    reflexivity.
Qed.

End TypeFilter.

(* ===================================================================== *)
(** ** What a successful advanced search returns *)
(* ===================================================================== *)

Section Advanced.
Import SQL Search.

Variable db : Db.

Lemma slice0_nonneg {A : Type} (l : list A) (n : Z) :
  (0 <= n)%Z -> JS.slice0 l (Some n) = firstn (Z.to_nat n) l.
Proof.
  intros Hn. unfold JS.slice0.
  destruct (Z.ltb_spec n 0) as [Hneg | _]; [lia|].
  destruct (Z.le_ge_cases n (Z.of_nat (List.length l))) as [Hle | Hge].
  - now rewrite Z.min_l.
  - rewrite Z.min_r, Nat2Z.id by assumption.
    rewrite !firstn_all2; trivial; lia.
Qed.

Lemma slice0_NaN {A : Type} (l : list A) : JS.slice0 l None = [].
Proof.
  unfold JS.slice0. simpl.
  destruct (Z.min_spec 0 (Z.of_nat (List.length l))) as [[_ ->] | [H ->]].
  - reflexivity.
  - assert (List.length l = 0)%nat as E by lia.
    rewrite E. reflexivity.
Qed.

Lemma branch_returned (ty : option string) (name : string) (qy : Query)
    (results : list ResultRow) (log : list Query) r log' :
  branch db ty name qy results log = (Returned r, log') ->
  r = results ++ rows_of db (if wants ty name then [qy] else [])
  /\ log' = log ++ (if wants ty name then [qy] else []).
Proof.
  unfold branch, bind, ret, db_all.
  destruct (wants ty name).
  - destruct (fails db (List.length log)); [discriminate|].
    intros E. inversion E; subst. unfold Search.rows_of. simpl. now rewrite app_nil_r.
  - intros E. inversion E; subst. simpl. now rewrite !app_nil_r.
Qed.

(** The shape of every 200 response of the advanced search. *)
Lemma search_advanced_200 (req : ReqQuery) (resp : Response) (log : list Query) :
  search_advanced db req = (resp, log) ->
  status resp = 200%Z ->
  exists query,
    req_q req = Some query
    /\ log = admitted req query
    /\ resp =
       {| status := 200;
          body := AdvancedBody true (JS.trim query) (or_all (req_type req))
                    (or_all (req_category req))
                    (List.length (JS.slice0 (rows_of db log) (parsed_limit (req_limit req))))
                    (JS.slice0 (rows_of db log) (parsed_limit (req_limit req))) |}.
Proof.
  unfold search_advanced, try_catch.
  destruct (search_advanced_body db req []) as [[r|] l] eqn:E;
    intros H Hst; inversion H; subst; [|discriminate].
  clear H. revert E. unfold search_advanced_body.
  destruct (req_q req) as [query|]; [|intros E; inversion E; subst; discriminate].
  destruct (String.eqb query EmptyString || (String.length (JS.trim query) <? 2)%nat);
    [intros E; inversion E; subst; discriminate|].
  match goal with |- context [if ?c then ret invalid_type else _] => destruct c end;
    [intros E; inversion E; subst; discriminate|].
  unfold bind at 1.
  destruct (branch db _ "profile" _ _ _) as [[r1|] l1] eqn:E1; [|discriminate].
  unfold bind at 1.
  destruct (branch db _ "skill" _ _ _) as [[r2|] l2] eqn:E2; [|discriminate].
  unfold bind at 1.
  destruct (branch db _ "project" _ _ _) as [[r3|] l3] eqn:E3; [|discriminate].
  unfold bind at 1.
  destruct (branch db _ "work" _ _ _) as [[r4|] l4] eqn:E4; [|discriminate].
  apply branch_returned in E1, E2, E3, E4.
  destruct E1 as [-> ->], E2 as [-> ->], E3 as [-> ->], E4 as [-> ->].
  unfold ret. intros E. inversion E; subst. clear E.
  exists query. split; [reflexivity|].
  assert (Hlog :
    (((([] ++ (if wants (req_type req) "profile" then [SelectProfile (searchTerm query)] else []))
       ++ (if wants (req_type req) "skill"
           then [SelectSkills (searchTerm query)
                   (if JS.truthy (req_category req) then req_category req else None)]
           else []))
      ++ (if wants (req_type req) "project" then [SelectProjects (searchTerm query)] else []))
     ++ (if wants (req_type req) "work" then [SelectWork (searchTerm query)] else []))
    = admitted req query).
  { unfold admitted, advanced_queries. simpl.
    destruct (wants (req_type req) "profile"), (wants (req_type req) "skill"),
      (wants (req_type req) "project"), (wants (req_type req) "work"); reflexivity. }
  rewrite <- Hlog.
  split; [reflexivity|].
  unfold Search.rows_of. rewrite !flat_map_app. reflexivity.
Qed.

(** With a database that answers, a request that passes both validations
    is answered 200. *)
Lemma search_advanced_reachable (req : ReqQuery) :
  reachable db ->
  query_ok (req_q req) = true ->
  (JS.truthy (req_type req) = false
   \/ exists t, req_type req = Some t /\ includes valid_types t = true) ->
  status (fst (search_advanced db req)) = 200%Z.
Proof.
  intros Hup Hok Hty.
  destruct (query_ok_inv _ Hok) as (query & Hq & Hlen).
  unfold search_advanced, search_advanced_body, try_catch.
  rewrite Hq, Hlen.
  assert (JS.truthy (req_type req)
          && negb (match req_type req with
                   | Some t => includes valid_types t
                   | None => false
                   end) = false) as ->.
  { destruct Hty as [-> | (t & -> & ->)]; [reflexivity|].
    now rewrite andb_false_r. }
  unfold bind.
  repeat (rewrite branch_reachable by assumption;
          match goal with |- context [wants ?a ?b] => destruct (wants a b) end;
          cbv beta iota);
    reflexivity.
Qed.

End Advanced.

Section Limit.
Import SQL Search.

Variable db : Db.

(** C5, amended.  When the limit is absent (N = 20) or parses to an integer
    N that is not negative, the data of a successful advanced search is
    the first N entries of the merged sequence, which is the rows of the
    issued queries in the order profile, skill, project, work with no sort
    applied.  With limit 1 and at least one matching row the data has
    exactly one entry. *)
Theorem advanced_limit_truncates (req : ReqQuery) (resp : Response)
    (log : list Query) (n : Z) :
  search_advanced db req = (resp, log) ->
  status resp = 200%Z ->
  parsed_limit (req_limit req) = Some n ->
  (0 <= n)%Z ->
  (exists query, req_q req = Some query /\ log = admitted req query)
  /\ resp_data resp = firstn (Z.to_nat n) (rows_of db log)
  /\ (req_limit req = None -> n = 20%Z)
  /\ (n = 1%Z -> rows_of db log <> [] -> List.length (resp_data resp) = 1%nat).
Proof.
  intros Hrun Hst Hlim Hn.
  destruct (search_advanced_200 db req resp log Hrun Hst) as (query & Hq & Hlog & Hresp).
  assert (Hdata : resp_data resp = firstn (Z.to_nat n) (rows_of db log)).
  { rewrite Hresp. unfold resp_data. cbn [body].
    rewrite Hlim. now apply slice0_nonneg. }
  split; [now exists query|].
  split; [exact Hdata|].
  split.
  - intros Habs. rewrite Habs in Hlim. simpl in Hlim. congruence.
  - intros -> Hne. rewrite Hdata.
    destruct (rows_of db log); [congruence | reflexivity].
Qed.

(** C10. A limit that is present but does not parse as an integer makes a
    request that is otherwise answered 200 return an empty data array and
    count 0, whatever rows the queries matched. *)
Theorem advanced_unparseable_limit_empty (req : ReqQuery) (limit : string) :
  reachable db ->
  query_ok (req_q req) = true ->
  (JS.truthy (req_type req) = false
   \/ exists t, req_type req = Some t /\ includes valid_types t = true) ->
  req_limit req = Some limit ->
  JS.parseInt limit = None ->
  status (fst (search_advanced db req)) = 200%Z
  /\ resp_data (fst (search_advanced db req)) = []
  /\ resp_count (fst (search_advanced db req)) = Some 0%nat.
Proof.
  intros Hup Hok Hty Hlim Hnan.
  pose proof (search_advanced_reachable db req Hup Hok Hty) as Hst.
  destruct (search_advanced db req) as [resp log] eqn:Hrun.
  cbn [fst] in *.
  destruct (search_advanced_200 db req resp log Hrun Hst) as (query & _ & _ & Hresp).
  split; [exact Hst|].
  rewrite Hresp. unfold resp_data, resp_count. cbn [body].
  unfold parsed_limit. rewrite Hlim, Hnan, slice0_NaN. split; reflexivity.
Qed.

End Limit.

(* ===================================================================== *)
(** ** Array.prototype.sort under a consistent comparator *)
(* ===================================================================== *)

Section Sorting.

Context {A : Type}.
Variable cmp : A -> A -> Z.

Hypothesis cmp_total : forall a b, JS.before cmp a b \/ JS.before cmp b a.
Hypothesis cmp_trans : forall a b c, JS.before cmp a b -> JS.before cmp b c -> JS.before cmp a c.

Lemma insert_perm (x : A) (l : list A) : Permutation (JS.insert cmp x l) (x :: l).
Proof.
  induction l as [|y l IH]; simpl; [reflexivity|].
  destruct (cmp x y <=? 0)%Z; [reflexivity|].
  rewrite IH. apply perm_swap.
Qed.

Lemma sort_perm (l : list A) : Permutation (JS.sort cmp l) l.
Proof.
  induction l as [|x l IH]; simpl; [constructor|].
  rewrite insert_perm. now constructor.
Qed.

Lemma insert_sorted (x : A) (l : list A) :
  StronglySorted (JS.before cmp) l -> StronglySorted (JS.before cmp) (JS.insert cmp x l).
Proof.
  induction 1 as [|y l Hs IH Hall]; simpl.
  - repeat constructor.
  - destruct (Z.leb_spec (cmp x y) 0) as [Hle | Hgt].
    + constructor; [now constructor|].
      constructor; [exact Hle|].
      eapply Forall_impl; [|exact Hall].
      intros z Hz. now apply cmp_trans with y.
    + constructor; [exact IH|].
      assert (Hyx : JS.before cmp y x).
      { destruct (cmp_total x y) as [H | H]; [unfold JS.before in H; lia | exact H]. }
      rewrite Forall_forall in *. intros z Hz.
      apply (Permutation_in _ (insert_perm x l)) in Hz.
      destruct Hz as [<- | Hz]; auto.
Qed.

Lemma sort_sorted (l : list A) : StronglySorted (JS.before cmp) (JS.sort cmp l).
Proof.
  induction l as [|x l IH]; simpl; [constructor|].
  now apply insert_sorted.
Qed.

(** In a sorted array the entry at the smaller index may stand before the
    one at the larger index. *)
Lemma sorted_nth_error (l : list A) :
  StronglySorted (JS.before cmp) l ->
  forall i j a b, (i < j)%nat ->
    nth_error l i = Some a -> nth_error l j = Some b -> JS.before cmp a b.
Proof.
  induction 1 as [|x l Hs IH Hall]; intros i j a b Hij Ha Hb.
  - destruct i; discriminate.
  - destruct j as [|j]; [lia|]. simpl in Hb.
    destruct i as [|i]; simpl in Ha.
    + inversion Ha; subst.
      rewrite Forall_forall in Hall. apply Hall.
      now apply nth_error_In with j.
    + apply (IH i j); trivial; lia.
Qed.

(** An entry that must stand strictly before another one does so in the
    sorted array. *)
Lemma sort_places_before (l : list A) (i j : nat) (a b : A) :
  nth_error (JS.sort cmp l) i = Some a ->
  nth_error (JS.sort cmp l) j = Some b ->
  (cmp b a > 0)%Z ->
  (i < j)%nat.
Proof.
  intros Ha Hb Hgt.
  destruct (Nat.lt_trichotomy i j) as [Hlt | [-> | Hlt]]; [exact Hlt | |].
  - rewrite Ha in Hb. inversion Hb; subst.
    destruct (cmp_total b b) as [H | H]; unfold JS.before in H; lia.
  - pose proof (sorted_nth_error _ (sort_sorted l) j i b a Hlt Hb Ha) as H.
    unfold JS.before in H. lia.
Qed.

End Sorting.

(* ===================================================================== *)
(** ** The basic search: merge and relevance order *)
(* ===================================================================== *)

Section Basic.
Import SQL Search.

Variable db : Db.

Lemma relevance_total (query : string) (a b : ResultRow) :
  JS.before (relevance query) a b \/ JS.before (relevance query) b a.
Proof.
  unfold JS.before, relevance.
  destruct (exact query a), (exact query b); simpl; lia.
Qed.

Lemma relevance_trans (query : string) (a b c : ResultRow) :
  JS.before (relevance query) a b -> JS.before (relevance query) b c ->
  JS.before (relevance query) a c.
Proof.
  unfold JS.before, relevance.
  destruct (exact query a), (exact query b), (exact query c); simpl; lia.
Qed.

(** What the four awaited queries return when none of them throws. *)
Lemma allResults_returned (term : string) (log : list Query) merged log' :
  allResults db term log = (Returned merged, log') ->
  merged = rows_of db [SelectProfile term; SelectSkills term None;
                       SelectProjects term; SelectWork term]
  /\ log' = log ++ [SelectProfile term; SelectSkills term None;
                    SelectProjects term; SelectWork term].
Proof.
  unfold allResults, bind, db_all, ret.
  destruct (fails db (List.length log)); [discriminate|].
  destruct (fails db (List.length (log ++ _))); [discriminate|].
  destruct (fails db (List.length ((log ++ _) ++ _))); [discriminate|].
  destruct (fails db (List.length (((log ++ _) ++ _) ++ _))); [discriminate|].
  intros E. inversion E; subst. clear E.
  unfold rows_of. simpl. rewrite app_nil_r, <- !app_assoc. split; reflexivity.
Qed.

Lemma allResults_reachable (term : string) (log : list Query) :
  reachable db ->
  exists merged log', allResults db term log = (Returned merged, log').
Proof.
  intros Hup. unfold allResults, bind.
  repeat (rewrite db_all_reachable by assumption; cbv beta iota).
  unfold ret. eauto.
Qed.

(** The shape of every 200 response of the basic search. *)
Lemma search_200 (req : ReqQuery) (resp : Response) (log : list Query) :
  search db req = (resp, log) ->
  status resp = 200%Z ->
  exists query,
    req_q req = Some query
    /\ log = [SelectProfile (searchTerm query); SelectSkills (searchTerm query) None;
              SelectProjects (searchTerm query); SelectWork (searchTerm query)]
    /\ resp =
       {| status := 200;
          body := SearchBody true (JS.trim query)
                    (List.length (JS.sort (relevance query) (rows_of db log)))
                    (JS.sort (relevance query) (rows_of db log)) |}.
Proof.
  unfold search, try_catch.
  destruct (search_body db req []) as [[r|] l] eqn:E;
    intros H Hst; inversion H; subst; [|discriminate].
  clear H. revert E. unfold search_body.
  destruct (req_q req) as [query|]; [|intros E; inversion E; subst; discriminate].
  destruct (String.eqb query EmptyString || (String.length (JS.trim query) <? 2)%nat);
    [intros E; inversion E; subst; discriminate|].
  unfold bind at 1.
  destruct (allResults db (searchTerm query) []) as [[merged|] l1] eqn:E1; [|discriminate].
  apply allResults_returned in E1. destruct E1 as [-> ->].
  unfold ret. intros E. inversion E; subst. clear E.
  exists query. repeat split; reflexivity.
Qed.

Lemma search_reachable (req : ReqQuery) :
  reachable db -> query_ok (req_q req) = true ->
  status (fst (search db req)) = 200%Z.
Proof.
  intros Hup Hok. destruct (query_ok_inv _ Hok) as (query & Hq & Hlen).
  unfold search, search_body, try_catch. rewrite Hq, Hlen.
  unfold bind at 1.
  destruct (allResults_reachable (searchTerm query) [] Hup) as (merged & log' & ->).
  reflexivity.
Qed.

(** C7. The sequence the basic search builds before sorting is the rows of
    the profile query, then those of the skill query, then those of the
    project query, then those of the work query, each block in the order
    its query returned it; it is built whenever the database answers, and
    the response data is the sort of that sequence. *)
Theorem basic_merge_is_concatenation (req : ReqQuery) (query : string) :
  reachable db ->
  req_q req = Some query ->
  query_ok (req_q req) = true ->
  let term := searchTerm query in
  let profileResults := run_query (collation db) (store db) (SelectProfile term) in
  let skillResults := run_query (collation db) (store db) (SelectSkills term None) in
  let projectResults := run_query (collation db) (store db) (SelectProjects term) in
  let workResults := run_query (collation db) (store db) (SelectWork term) in
  let merged := profileResults ++ skillResults ++ projectResults ++ workResults in
  allResults db term [] =
    (Returned merged,
     [SelectProfile term; SelectSkills term None; SelectProjects term; SelectWork term])
  /\ resp_data (fst (search db req)) = JS.sort (relevance query) merged.
Proof.
  intros Hup Hq Hok. cbv zeta.
  destruct (allResults_reachable (searchTerm query) [] Hup) as (merged & log' & Hrun).
  pose proof (allResults_returned _ _ _ _ Hrun) as [Hm Hl].
  unfold rows_of in Hm. simpl in Hm, Hl. rewrite app_nil_r in Hm.
  split.
  - rewrite Hrun, Hm, Hl. reflexivity.
  - pose proof (search_reachable req Hup Hok) as Hst.
    destruct (search db req) as [resp log] eqn:Hs. cbn [fst] in *.
    destruct (search_200 req resp log Hs Hst) as (query' & Hq' & Hlog & Hresp).
    assert (query' = query) as -> by congruence.
    rewrite Hresp, Hlog. unfold resp_data, rows_of. cbn [body flat_map].
    now rewrite app_nil_r.
Qed.

Lemma exact_true (query : string) (a : ResultRow) :
  exact query a = true <-> JS.toLowerCase (title a) = JS.toLowerCase query.
Proof.
  unfold exact. apply String.eqb_eq.
Qed.

Lemma exact_agree (query : string) (a b : ResultRow) :
  (JS.toLowerCase (title a) = JS.toLowerCase query <->
   JS.toLowerCase (title b) = JS.toLowerCase query) ->
  exact query a = exact query b.
Proof.
  intros H. rewrite <- !exact_true in H.
  destruct (exact query a), (exact query b); trivial.
  - symmetry. now apply H.
  - now apply H.
Qed.

Lemma relevance_exact_first (query : string) (a b : ResultRow) :
  JS.toLowerCase (title a) = JS.toLowerCase query ->
  JS.toLowerCase (title b) <> JS.toLowerCase query ->
  (relevance query a b < 0)%Z /\ (relevance query b a > 0)%Z.
Proof.
  intros Ha Hb. apply exact_true in Ha. rewrite <- exact_true in Hb.
  apply not_true_is_false in Hb. unfold relevance. rewrite Ha, Hb. simpl. lia.
Qed.

Lemma relevance_equal_status (query : string) (a b : ResultRow) :
  (JS.toLowerCase (title a) = JS.toLowerCase query <->
   JS.toLowerCase (title b) = JS.toLowerCase query) ->
  relevance query a b =
  (JS.indexOf (JS.toLowerCase (title a)) (JS.toLowerCase query)
   - JS.indexOf (JS.toLowerCase (title b)) (JS.toLowerCase query))%Z.
Proof.
  intros H. apply exact_agree in H. unfold relevance. rewrite H.
  destruct (exact query b); reflexivity.
Qed.

(** C2. The comparator of the basic search ranks an entry whose lowercased
    title equals the lowercased query strictly before one whose title does
    not.  For two entries of equal exact-match status it returns the
    difference of the zero-based indices of the first occurrence of the
    lowercased query in their lowercased titles, so the earlier occurrence
    ranks first; a title in which the query does not occur counts with
    index -1.  The data of a 200 response is a permutation of the merged
    rows in which an entry that ranks strictly first stands at the smaller
    index.  For the query React, in any letter case, a row titled React is
    ranked before a row titled React Native. *)
Theorem relevance_comparator_order (query : string) :
  (forall a b,
     JS.toLowerCase (title a) = JS.toLowerCase query ->
     JS.toLowerCase (title b) <> JS.toLowerCase query ->
     (relevance query a b < 0)%Z /\ (relevance query b a > 0)%Z)
  /\ (forall a b i j,
        (JS.toLowerCase (title a) = JS.toLowerCase query <->
         JS.toLowerCase (title b) = JS.toLowerCase query) ->
        Occurrence.first_at (JS.toLowerCase (title a)) (JS.toLowerCase query) i ->
        Occurrence.first_at (JS.toLowerCase (title b)) (JS.toLowerCase query) j ->
        relevance query a b = (Z.of_nat i - Z.of_nat j)%Z)
  /\ (forall a b j,
        (JS.toLowerCase (title a) = JS.toLowerCase query <->
         JS.toLowerCase (title b) = JS.toLowerCase query) ->
        Occurrence.nowhere (JS.toLowerCase (title a)) (JS.toLowerCase query) ->
        Occurrence.first_at (JS.toLowerCase (title b)) (JS.toLowerCase query) j ->
        relevance query a b = (- 1 - Z.of_nat j)%Z)
  /\ (forall req resp log,
        req_q req = Some query ->
        search db req = (resp, log) ->
        status resp = 200%Z ->
        Permutation (resp_data resp)
          (run_query (collation db) (store db) (SelectProfile (searchTerm query))
           ++ run_query (collation db) (store db) (SelectSkills (searchTerm query) None)
           ++ run_query (collation db) (store db) (SelectProjects (searchTerm query))
           ++ run_query (collation db) (store db) (SelectWork (searchTerm query)))
        /\ forall i j a b,
             nth_error (resp_data resp) i = Some a ->
             nth_error (resp_data resp) j = Some b ->
             (JS.toLowerCase (title a) = JS.toLowerCase query
              /\ JS.toLowerCase (title b) <> JS.toLowerCase query)
             \/ ((JS.toLowerCase (title a) = JS.toLowerCase query <->
                  JS.toLowerCase (title b) = JS.toLowerCase query)
                 /\ exists p q,
                      Occurrence.first_at (JS.toLowerCase (title a))
                        (JS.toLowerCase query) p
                      /\ Occurrence.first_at (JS.toLowerCase (title b))
                           (JS.toLowerCase query) q
                      /\ (p < q)%nat) ->
             (i < j)%nat)
  /\ (forall a b,
        title a = "React" -> title b = "React Native" ->
        (relevance "React" a b < 0)%Z /\ (relevance "React" b a > 0)%Z
        /\ (relevance "rEACT" a b < 0)%Z).
Proof.
  assert (Hidx : forall a b i j,
    (JS.toLowerCase (title a) = JS.toLowerCase query <->
     JS.toLowerCase (title b) = JS.toLowerCase query) ->
    Occurrence.first_at (JS.toLowerCase (title a)) (JS.toLowerCase query) i ->
    Occurrence.first_at (JS.toLowerCase (title b)) (JS.toLowerCase query) j ->
    relevance query a b = (Z.of_nat i - Z.of_nat j)%Z).
  { intros a b i j Hst Ha Hb. rewrite (relevance_equal_status query a b Hst).
    now rewrite (indexOf_first_at _ _ _ Ha), (indexOf_first_at _ _ _ Hb). }
  split; [exact (relevance_exact_first query)|].
  split; [exact Hidx|].
  split; [|split].
  - intros a b j Hst Ha Hb. rewrite (relevance_equal_status query a b Hst).
    now rewrite (indexOf_nowhere _ _ Ha), (indexOf_first_at _ _ _ Hb).
  - intros req resp log Hq Hs Hst.
    destruct (search_200 req resp log Hs Hst) as (query' & Hq' & -> & ->).
    assert (query' = query) as -> by congruence.
    unfold resp_data. cbn [body]. split.
    + rewrite sort_perm. unfold rows_of. cbn [flat_map]. now rewrite app_nil_r.
    + intros i j a b Ha Hb Hord.
      eapply (sort_places_before (relevance query)
                (relevance_total query) (relevance_trans query)); eauto.
      destruct Hord as [[Hea Heb] | (Heq & p & q & Hp & Hq0 & Hlt)].
      * apply (relevance_exact_first query a b Hea Heb).
      * rewrite (Hidx b a q p); [lia | tauto | exact Hq0 | exact Hp].
  - intros a b Ha Hb. unfold relevance, exact, position. rewrite Ha, Hb.
    repeat split; vm_compute; reflexivity.
Qed.

End Basic.

(* ===================================================================== *)
(** ** Every returned object names a row of the store *)
(* ===================================================================== *)

Section RoundTrip.
Import SQL Search.

Variable db : Db.

Lemma run_query_sound (coll : ascii -> ascii) (st : Store) (qy : Query) (r : ResultRow) :
  In r (run_query coll st qy) ->
  type r = query_entity qy /\ resolves st (type r) (id r).
Proof.
  unfold resolves.
  destruct qy as [t | t c | t | t]; simpl; rewrite in_map_iff;
    intros (x & <- & Hx); apply filter_In in Hx; destruct Hx as [Hx _];
    (split; [reflexivity|]); simpl.
  - left. eauto.
  - right; left. eauto.
  - right; right; left. eauto.
  - right; right; right. eauto.
Qed.

Lemma query_entity_valid (qy : Query) : In (query_entity qy) valid_types.
Proof.
  destruct qy; simpl; tauto.
Qed.

Lemma rows_of_sound (log : list Query) (r : ResultRow) :
  In r (rows_of db log) ->
  In (type r) valid_types /\ resolves (store db) (type r) (id r)
  /\ exists qy, In qy log /\ In r (run_query (collation db) (store db) qy).
Proof.
  unfold rows_of. rewrite in_flat_map. intros (qy & Hqy & Hr).
  destruct (run_query_sound _ _ _ _ Hr) as [Hty Hres].
  split; [rewrite Hty; apply query_entity_valid|].
  split; [exact Hres|]. eauto.
Qed.

Lemma firstn_In_inv {A : Type} (n : nat) (l : list A) (x : A) :
  In x (firstn n l) -> In x l.
Proof.
  intros H. rewrite <- (firstn_skipn n l). apply in_or_app. now left.
Qed.

Lemma slice0_In {A : Type} (l : list A) (e : option Z) (x : A) :
  In x (JS.slice0 l e) -> In x l.
Proof.
  unfold JS.slice0. apply firstn_In_inv.
Qed.

(** C8. In every 200 response of either endpoint each object of [data]
    carries one of the four type tags and the id of a row of the table of
    that entity, and [count] is the length of [data]. *)
Theorem data_rows_resolve (req : ReqQuery) (resp : Response) (log : list Query) :
  search db req = (resp, log) \/ search_advanced db req = (resp, log) ->
  status resp = 200%Z ->
  (forall r, In r (resp_data resp) ->
     In (type r) ["profile"; "skill"; "project"; "work"]
     /\ resolves (store db) (type r) (id r))
  /\ resp_count resp = Some (List.length (resp_data resp)).
Proof.
  intros [Hs | Hs] Hst.
  - destruct (search_200 db req resp log Hs Hst) as (query & _ & _ & ->).
    unfold resp_data, resp_count. cbn [body]. split; [|reflexivity].
    intros r Hr.
    apply (Permutation_in _ (sort_perm (relevance query) (rows_of db log))) in Hr.
    apply rows_of_sound in Hr. tauto.
  - destruct (search_advanced_200 db req resp log Hs Hst) as (query & _ & _ & ->).
    unfold resp_data, resp_count. cbn [body]. split; [|reflexivity].
    intros r Hr. apply slice0_In in Hr.
    apply rows_of_sound in Hr. tauto.
Qed.

End RoundTrip.

(* ===================================================================== *)
(** ** The raw query in the comparator *)
(* ===================================================================== *)

Section RawQuery.
Import SQL Search.

Lemma toLowerCase_length (s : string) :
  String.length (JS.toLowerCase s) = String.length s.
Proof.
  induction s as [|c s IH]; simpl; congruence.
Qed.

Lemma trimStart_shorter (s : string) :
  JS.trimStart s = s \/ (String.length (JS.trimStart s) < String.length s)%nat.
Proof.
  induction s as [|c s IH]; simpl; [now left|].
  destruct (JS.isWhiteSpace c); [|now left].
  right. destruct IH as [-> | IH]; lia.
Qed.

Lemma trimEnd_shorter (s : string) :
  JS.trimEnd s = s \/ (String.length (JS.trimEnd s) < String.length s)%nat.
Proof.
  induction s as [|c s IH]; simpl; [now left|].
  destruct (JS.trimEnd s) as [|d t] eqn:E.
  - destruct (JS.isWhiteSpace c); simpl; [right; lia|].
    destruct IH as [<- | IH]; [now left|].
    right. simpl in IH. lia.
  - destruct IH as [<- | IH]; [now left|].
    right. simpl in *. lia.
Qed.

Lemma trim_shorter (s : string) :
  JS.trim s <> s -> (String.length (JS.trim s) < String.length s)%nat.
Proof.
  unfold JS.trim. intros Hne.
  destruct (trimStart_shorter s) as [Es | Hs].
  - rewrite Es in *.
    destruct (trimEnd_shorter s) as [Ee | He]; [contradiction | exact He].
  - destruct (trimEnd_shorter (JS.trimStart s)) as [Ee | He]; [rewrite Ee|]; lia.
Qed.

(** C9. The queries of the basic search carry the pattern built from the
    trimmed query, while the comparator tests the title against the raw
    one: when trimming changes the query, an entry whose lowercased title
    equals the lowercased trimmed query is not an exact match. *)
Theorem untrimmed_query_never_exact (db : Db) (req : ReqQuery) (query : string)
    (a : ResultRow) :
  req_q req = Some query ->
  query_ok (req_q req) = true ->
  JS.trim query <> query ->
  JS.toLowerCase (title a) = JS.toLowerCase (JS.trim query) ->
  exact query a = false
  /\ (forall b, relevance query a b =
                 if exact query b then 1%Z
                 else (position query a - position query b)%Z)
  /\ (reachable db ->
      snd (search db req) =
        [ SelectProfile (String.append "%" (String.append (JS.trim query) "%"));
          SelectSkills (String.append "%" (String.append (JS.trim query) "%")) None;
          SelectProjects (String.append "%" (String.append (JS.trim query) "%"));
          SelectWork (String.append "%" (String.append (JS.trim query) "%")) ]).
Proof.
  intros Hq Hok Hne Heq.
  assert (Hex : exact query a = false).
  { unfold exact. apply String.eqb_neq. intros E.
    rewrite Heq in E. apply (f_equal String.length) in E.
    rewrite !toLowerCase_length in E.
    apply trim_shorter in Hne. lia. }
  split; [exact Hex|]. split.
  - intros b. unfold relevance. rewrite Hex. simpl.
    destruct (exact query b); reflexivity.
  - intros Hup.
    pose proof (search_reachable db req Hup Hok) as Hst.
    destruct (search db req) as [resp log] eqn:Hs. cbn [fst snd] in *.
    destruct (search_200 db req resp log Hs Hst) as (query' & Hq' & Hlog & _).
    assert (query' = query) as -> by congruence.
    exact Hlog.
Qed.

End RawQuery.

(* ===================================================================== *)
(** ** The category filter of the skill branch *)
(* ===================================================================== *)

Section CategoryFilter.
Import SQL Search.

(** What the skill statement with a category keeps: the name matches the
    pattern, or the category both matches the pattern and equals the
    filter. *)
Lemma skill_rows_with_category (coll : ascii -> ascii) (st : Store)
    (term c : string) (r : ResultRow) :
  In r (run_query coll st (SelectSkills term (Some c))) ->
  type r = "skill"
  /\ exists s, In s (skills st) /\ r = skill_result s
     /\ (sql_like coll (Some (skill_name s)) term = Some true
         \/ (sql_like coll (skill_category s) term = Some true
             /\ sql_eq coll (skill_category s) c = Some true)).
Proof.
  unfold run_query. rewrite in_map_iff. intros (s & <- & Hs).
  apply filter_In in Hs. destruct Hs as [Hin Hw].
  split; [reflexivity|]. exists s. repeat split; trivial.
  unfold skill_where in Hw.
  destruct (sql_like coll (Some (skill_name s)) term) as [[|]|];
    destruct (sql_like coll (skill_category s) term) as [[|]|];
    destruct (sql_eq coll (skill_category s) c) as [[|]|];
    simpl in Hw; try discriminate; auto.
Qed.

(** C1 fails on the code.  Store: one skill, Python, of category
    Data Science.  Request: q=Python, type=skill, category=Backend.  Under
    every collation the response is 200 and its data is that skill: its
    name matches the pattern, and its category is not the filter value. *)
Theorem category_filter_returns_name_match (coll : ascii -> ascii) :
  let python :=
    {| skill_id := 7; skill_name := "Python"; skill_proficiency := Some 5%Z;
       skill_category := Some "Data Science" |} in
  let db :=
    {| store := {| profile := []; skills := [python]; projects := [];
                   work_experience := [] |};
       collation := coll;
       fails := fun _ => false |} in
  let req :=
    {| req_q := Some "Python"; req_type := Some "skill";
       req_category := Some "Backend"; req_limit := None |} in
  search_advanced db req =
    ({| status := 200;
        body := AdvancedBody true "Python" "skill" "Backend" 1
                  [ {| type := "skill"; title := "Python";
                       description := Some "Expert level";
                       category := Some "Data Science"; id := 7 |} ] |},
     [SelectSkills "%Python%" (Some "Backend")])
  /\ sql_like coll (Some (skill_name python)) "%Python%" = Some true
  /\ sql_eq coll (skill_category python) "Backend" = Some false.
Proof.
  cbv zeta.
  assert (Hlike : like_match coll (like_tokens "%Python%") "Python" = true).
  { replace (like_tokens "%Python%")
      with [AnyString; Literal "P"; Literal "y"; Literal "t"; Literal "h";
            Literal "o"; Literal "n"; AnyString] by reflexivity.
    simpl. rewrite !Ascii.eqb_refl. reflexivity. }
  split; [|split].
  - match goal with |- search_advanced ?d ?r = _ =>
      set (db := d); set (req := r) end.
    assert (Hup : reachable db) by (intros n; reflexivity).
    assert (Hok : query_ok (req_q req) = true) by reflexivity.
    assert (Hty : JS.truthy (req_type req) = false
                  \/ exists t, req_type req = Some t /\ includes valid_types t = true).
    { right. exists "skill". split; reflexivity. }
    pose proof (search_advanced_reachable db req Hup Hok Hty) as Hst.
    destruct (search_advanced db req) as [resp log] eqn:Hrun. cbn [fst] in Hst.
    destruct (search_advanced_200 db req resp log Hrun Hst) as (query & Hq & Hlog & Hresp).
    assert (query = "Python") as -> by (cbn in Hq; congruence).
    assert (Hlog' : log = [SelectSkills "%Python%" (Some "Backend")])
      by (rewrite Hlog; reflexivity).
    assert (Hrows : rows_of db log =
                    [ {| type := "skill"; title := "Python";
                         description := Some "Expert level";
                         category := Some "Data Science"; id := 7 |} ]).
    { rewrite Hlog'. unfold rows_of, flat_map, run_query, db.
      cbn [collation store skills filter]. unfold skill_where, sql_like.
      cbn [skill_name]. rewrite Hlike. reflexivity. }
    rewrite Hresp, Hrows, Hlog'. reflexivity.
  - unfold sql_like. cbn [skill_name]. now rewrite Hlike.
  - cbn. repeat (destruct (Ascii.eqb _ _); cbn); reflexivity.
Qed.

End CategoryFilter.

(* ===================================================================== *)
(** ** The theorems at concrete requests over the sample store *)
(* ===================================================================== *)

Section Witnesses.
Import SQL Search Sample.

Lemma sample_db_reachable : reachable db.
Proof. intros n. reflexivity. Defined.

Lemma short_query_400_no_query_witness :
  search db (request (Some " a ") None None None) = (invalid_query, [])
  /\ search_advanced db (request (Some " a ") None None None) = (invalid_query, []).
Proof.
  apply (short_query_400_no_query db (request (Some " a ") None None None)).
  right. exists " a ". split; [reflexivity | vm_compute; lia].
Defined.


Lemma type_filter_selects_queries_witness :
  (exists qy, snd (search_advanced db
                     (request (Some "react") (Some "skill") (Some "Frontend") None)) = [qy]
              /\ query_entity qy = "skill")
  /\ map query_entity (snd (search_advanced db (request (Some "react") None None None)))
     = ["profile"; "skill"; "project"; "work"].
Proof.
  split.
  - apply (proj1 (type_filter_selects_queries db
                    (request (Some "react") (Some "skill") (Some "Frontend") None)
                    eq_refl) "skill"); reflexivity.
  - apply (proj2 (type_filter_selects_queries db
                    (request (Some "react") None None None) eq_refl));
      [reflexivity | exact sample_db_reachable].
Defined.

Lemma advanced_limit_truncates_witness :
  resp_data (fst (search_advanced db (request (Some "react") None None (Some "1"))))
  = firstn 1 (rows_of db (snd (search_advanced db
                                 (request (Some "react") None None (Some "1")))))
  /\ List.length
       (resp_data (fst (search_advanced db (request (Some "react") None None (Some "1")))))
     = 1%nat.
Proof.
  destruct (advanced_limit_truncates db
              (request (Some "react") None None (Some "1"))
              (fst (search_advanced db (request (Some "react") None None (Some "1"))))
              (snd (search_advanced db (request (Some "react") None None (Some "1"))))
              1%Z (surjective_pairing _) eq_refl eq_refl)
    as (_ & H2 & _ & H4); [lia|].
  split; [exact H2|]. apply H4; [reflexivity|].
  vm_compute. discriminate.
Defined.

Lemma advanced_unparseable_limit_empty_witness :
  status (fst (search_advanced db (request (Some "react") None None (Some "abc")))) = 200%Z
  /\ resp_data (fst (search_advanced db (request (Some "react") None None (Some "abc")))) = []
  /\ resp_count (fst (search_advanced db (request (Some "react") None None (Some "abc"))))
     = Some 0%nat.
Proof.
  apply (advanced_unparseable_limit_empty db
           (request (Some "react") None None (Some "abc")) "abc").
  - exact sample_db_reachable.
  - reflexivity.
  - left. reflexivity.
  - reflexivity.
  - reflexivity.
Defined.

Lemma basic_merge_is_concatenation_witness :
  resp_data (fst (search db (request (Some "React") None None None)))
  = JS.sort (relevance "React")
      (run_query ci st (SelectProfile "%React%")
       ++ run_query ci st (SelectSkills "%React%" None)
       ++ run_query ci st (SelectProjects "%React%")
       ++ run_query ci st (SelectWork "%React%")).
Proof.
  apply (basic_merge_is_concatenation db (request (Some "React") None None None) "React").
  - exact sample_db_reachable.
  - reflexivity.
  - reflexivity.
Defined.

Lemma relevance_comparator_order_witness :
  ((relevance "React" (project_result {| project_id := 2; project_title := "React";
                                          project_description := None |})
                      (project_result {| project_id := 1; project_title := "React Native";
                                          project_description := Some "Mobile client" |})
    < 0)%Z)
  /\ relevance "native"
       (project_result {| project_id := 1; project_title := "React Native";
                          project_description := Some "Mobile client" |})
       (project_result {| project_id := 3; project_title := "Go native";
                          project_description := None |}) = 3%Z
  /\ (1 < 2)%nat.
Proof.
  split; [|split].
  - apply (proj1 (relevance_comparator_order db "React")
             (project_result {| project_id := 2; project_title := "React";
                                project_description := None |})
             (project_result {| project_id := 1; project_title := "React Native";
                                project_description := Some "Mobile client" |})).
    + reflexivity.
    + vm_compute. discriminate.
  - apply (proj1 (proj2 (relevance_comparator_order db "native"))
             (project_result {| project_id := 1; project_title := "React Native";
                                project_description := Some "Mobile client" |})
             (project_result {| project_id := 3; project_title := "Go native";
                                project_description := None |}) 6%nat 3%nat).
    + split; intros H; vm_compute in H; discriminate.
    + split.
      * exists "react ", EmptyString. split; reflexivity.
      * intros k Hk (pre & post & Hs & Hlen).
        destruct pre as [|c0 [|c1 [|c2 [|c3 [|c4 [|c5 pre]]]]]];
          simpl in Hlen; try lia; vm_compute in Hs; discriminate.
    + split.
      * exists "go ", EmptyString. split; reflexivity.
      * intros k Hk (pre & post & Hs & Hlen).
        destruct pre as [|c0 [|c1 [|c2 pre]]];
          simpl in Hlen; try lia; vm_compute in Hs; discriminate.
  - apply (proj2 (proj1 (proj2 (proj2 (proj2
             (relevance_comparator_order db "React"))))
             (request (Some "React") None None None)
             (fst (search db (request (Some "React") None None None)))
             (snd (search db (request (Some "React") None None None)))
             eq_refl (surjective_pairing _) eq_refl)
             1%nat 2%nat
             (project_result {| project_id := 2; project_title := "React";
                                project_description := None |})
             (project_result {| project_id := 1; project_title := "React Native";
                                project_description := Some "Mobile client" |})).
    + reflexivity.
    + reflexivity.
    + left. split; [reflexivity | vm_compute; discriminate].
Defined.

Lemma data_rows_resolve_witness :
  (forall r, In r (resp_data (fst (search db (request (Some "python") None None None)))) ->
     In (type r) ["profile"; "skill"; "project"; "work"] /\ resolves st (type r) (id r))
  /\ resp_count (fst (search db (request (Some "python") None None None))) = Some 2%nat.
Proof.
  apply (data_rows_resolve db (request (Some "python") None None None)
           (fst (search db (request (Some "python") None None None)))
           (snd (search db (request (Some "python") None None None)))).
  - left. apply surjective_pairing.
  - reflexivity.
Defined.

Lemma untrimmed_query_never_exact_witness :
  exact " React " (project_result {| project_id := 2; project_title := "React";
                                     project_description := None |}) = false.
Proof.
  apply (untrimmed_query_never_exact db (request (Some " React ") None None None) " React "
           (project_result {| project_id := 2; project_title := "React";
                              project_description := None |})).
  - reflexivity.
  - reflexivity.
  - vm_compute. discriminate.
  - reflexivity.
Defined.

End Witnesses.

(* ===================================================================== *)
(** ** Database failures and the status of a response *)
(* ===================================================================== *)

Section Failures.
Import SQL Search Reference.

Variable db : Db.

Lemma issue_success (qs : list Query) (results : list ResultRow) (log : list Query) :
  (forall n, (n < List.length qs)%nat -> fails db (List.length log + n) = false) ->
  issue db qs results log = (Returned (results ++ rows_of db qs), log ++ qs).
Proof.
  revert results log. induction qs as [|qy qs IH]; intros results log Hup.
  - unfold rows_of. simpl. unfold ret. now rewrite !app_nil_r.
  - simpl. unfold bind, db_all.
    pose proof (Hup 0%nat ltac:(simpl; lia)) as H0. rewrite Nat.add_0_r in H0.
    rewrite H0, IH.
    + unfold rows_of. simpl. now rewrite <- !app_assoc.
    + intros n Hn. rewrite length_app. simpl.
      replace (List.length log + 1 + n)%nat with (List.length log + S n)%nat by lia.
      apply Hup. simpl. lia.
Qed.

Lemma issue_failure (qs : list Query) (results : list ResultRow) (log : list Query)
    (k : nat) :
  (k < List.length qs)%nat ->
  (forall n, (n < k)%nat -> fails db (List.length log + n) = false) ->
  fails db (List.length log + k) = true ->
  issue db qs results log = (Thrown, log ++ firstn (S k) qs).
Proof.
  revert results log k. induction qs as [|qy qs IH]; intros results log k Hk Hup Hdown.
  - simpl in Hk. lia.
  - simpl issue. unfold bind, db_all.
    destruct k as [|k].
    + rewrite Nat.add_0_r in Hdown. rewrite Hdown. reflexivity.
    + pose proof (Hup 0%nat ltac:(lia)) as H0. rewrite Nat.add_0_r in H0.
      rewrite H0, (IH _ _ k).
      * change (firstn (S (S k)) (qy :: qs)) with (qy :: firstn (S k) qs).
        now rewrite <- app_assoc.
      * simpl in Hk. lia.
      * intros n Hn. rewrite length_app. simpl.
        replace (List.length log + 1 + n)%nat with (List.length log + S n)%nat by lia.
        apply Hup. lia.
      * rewrite length_app. simpl.
        now replace (List.length log + 1 + k)%nat with (List.length log + S k)%nat by lia.
Qed.

(** Either the first [m] calls all succeed, or there is a first one that
    fails. *)
Lemma first_failure (f : nat -> bool) (m : nat) :
  (forall n, (n < m)%nat -> f n = false)
  \/ exists k, (k < m)%nat /\ f k = true /\ forall n, (n < k)%nat -> f n = false.
Proof.
  induction m as [|m [IH | (k & Hk & Hf & Hlt)]].
  - left. intros n Hn. lia.
  - destruct (f m) eqn:Hm.
    + right. exists m. repeat split; trivial. lia.
    + left. intros n Hn.
      destruct (Nat.eq_dec n m) as [-> | Hne]; [exact Hm | apply IH; lia].
  - right. exists k. repeat split; trivial. lia.
Qed.

Lemma allResults_issue (term : string) (log : list Query) :
  allResults db term log =
  issue db [SelectProfile term; SelectSkills term None; SelectProjects term;
            SelectWork term] [] log.
Proof.
  unfold allResults. simpl issue. unfold bind, ret.
  destruct (db_all db (SelectProfile term) log) as [[r1|] l1]; [|reflexivity].
  destruct (db_all db (SelectSkills term None) l1) as [[r2|] l2]; [|reflexivity].
  destruct (db_all db (SelectProjects term) l2) as [[r3|] l3]; [|reflexivity].
  destruct (db_all db (SelectWork term) l3) as [[r4|] l4]; [|reflexivity].
  simpl. now rewrite <- !app_assoc.
Qed.

(** The basic search, for a query that passes the check, in terms of the
    run of its four queries. *)
Lemma search_issue (req : ReqQuery) (query : string) :
  req_q req = Some query ->
  query_ok (req_q req) = true ->
  search db req =
    match issue db (basic_queries query) [] [] with
    | (Returned merged, log) =>
        ({| status := 200;
            body := SearchBody true (JS.trim query)
                      (List.length (JS.sort (relevance query) merged))
                      (JS.sort (relevance query) merged) |}, log)
    | (Thrown, log) => (internal_error "Failed to perform search", log)
    end.
Proof.
  intros Hq Hok. destruct (query_ok_inv _ Hok) as (query' & Hq' & Hlen).
  assert (query' = query) as -> by congruence.
  unfold search, search_body, try_catch. rewrite Hq, Hlen.
  unfold bind at 1. rewrite allResults_issue. unfold basic_queries.
  destruct (issue db _ [] []) as [[merged|] log]; reflexivity.
Qed.

(** The advanced search, for a request that passes both checks, in terms
    of the run of the queries its type filter admits. *)
Lemma search_advanced_issue (req : ReqQuery) (query : string) :
  req_q req = Some query ->
  query_ok (req_q req) = true ->
  type_ok (req_type req) = true ->
  search_advanced db req =
    match issue db (admitted req query) [] [] with
    | (Returned merged, log) =>
        ({| status := 200;
            body := AdvancedBody true (JS.trim query) (or_all (req_type req))
                      (or_all (req_category req))
                      (List.length (JS.slice0 merged (parsed_limit (req_limit req))))
                      (JS.slice0 merged (parsed_limit (req_limit req))) |}, log)
    | (Thrown, log) => (internal_error "Failed to perform advanced search", log)
    end.
Proof.
  intros Hq Hok Hty. destruct (query_ok_inv _ Hok) as (query' & Hq' & Hlen).
  assert (query' = query) as -> by congruence.
  unfold type_ok in Hty. apply negb_true_iff in Hty.
  unfold search_advanced, search_advanced_body, try_catch. rewrite Hq, Hlen, Hty.
  unfold admitted, advanced_queries, branch. simpl filter.
  destruct (wants (req_type req) "profile"), (wants (req_type req) "skill"),
    (wants (req_type req) "project"), (wants (req_type req) "work");
    simpl issue; unfold bind, ret;
    repeat match goal with
           | |- context [db_all db ?q ?l] =>
               destruct (db_all db q l) as [[?|] ?]; try reflexivity
           end;
    reflexivity.
Qed.

(** X1. When a request passes validation and call [k] is the first query
    that throws, the response is the generic 500 body and the queries
    issued are exactly the first [k + 1] of the request: none is issued
    after the failure. *)
Theorem query_failure_500 (req : ReqQuery) (query : string) (k : nat) :
  req_q req = Some query ->
  query_ok (req_q req) = true ->
  (forall n, (n < k)%nat -> fails db n = false) ->
  fails db k = true ->
  ((k < 4)%nat ->
   search db req =
     ({| status := 500;
         body := ErrorBody "Internal server error" "Failed to perform search" |},
      firstn (S k) (basic_queries query)))
  /\ (type_ok (req_type req) = true ->
      (k < List.length (admitted req query))%nat ->
      search_advanced db req =
        ({| status := 500;
            body := ErrorBody "Internal server error"
                              "Failed to perform advanced search" |},
         firstn (S k) (admitted req query))).
Proof.
  intros Hq Hok Hup Hdown. split.
  - intros Hk. rewrite (search_issue req query Hq Hok).
    rewrite (issue_failure _ [] [] k); trivial.
  - intros Hty Hk. rewrite (search_advanced_issue req query Hq Hok Hty).
    rewrite (issue_failure _ [] [] k); trivial.
Qed.

Lemma search_invalid (req : ReqQuery) :
  query_ok (req_q req) = false ->
  search db req = (invalid_query, []) /\ search_advanced db req = (invalid_query, []).
Proof.
  intros Hbad. unfold search, search_advanced, search_body, search_advanced_body, try_catch.
  unfold query_ok in Hbad.
  destruct (req_q req) as [query|]; [|split; reflexivity].
  apply negb_false_iff in Hbad. rewrite Hbad. split; reflexivity.
Qed.

Lemma search_advanced_invalid_type (req : ReqQuery) :
  query_ok (req_q req) = true -> type_ok (req_type req) = false ->
  search_advanced db req = (invalid_type, []).
Proof.
  intros Hok Hty. destruct (query_ok_inv _ Hok) as (query & Hq & Hlen).
  unfold type_ok in Hty. apply negb_false_iff in Hty.
  unfold search_advanced, search_advanced_body, try_catch.
  now rewrite Hq, Hlen, Hty.
Qed.

(** For parameters that are strings or absent, the status of a response is
    200, 400 or 500.  It is 400 exactly when validation fails (a missing
    or short query; for the advanced search also a type outside the four
    values), whatever the state of the database, and 200 exactly when
    validation passes and every query of the request is answered. *)
Theorem status_classification (req : ReqQuery) :
  (In (status (fst (search db req))) [200%Z; 400%Z; 500%Z]
   /\ In (status (fst (search_advanced db req))) [200%Z; 400%Z; 500%Z])
  /\ (status (fst (search db req)) = 400%Z <-> query_ok (req_q req) = false)
  /\ (status (fst (search_advanced db req)) = 400%Z <->
      query_ok (req_q req) = false \/ type_ok (req_type req) = false)
  /\ (status (fst (search db req)) = 200%Z <->
      query_ok (req_q req) = true
      /\ forall n, (n < 4)%nat -> fails db n = false)
  /\ (status (fst (search_advanced db req)) = 200%Z <->
      exists query, req_q req = Some query
        /\ query_ok (req_q req) = true /\ type_ok (req_type req) = true
        /\ forall n, (n < List.length (admitted req query))%nat -> fails db n = false).
Proof.
  destruct (query_ok (req_q req)) eqn:Hok.
  - destruct (query_ok_inv _ Hok) as (query & Hq & _).
    assert (Hbasic :
      (status (fst (search db req)) = 200%Z
       /\ forall n, (n < 4)%nat -> fails db n = false)
      \/ (status (fst (search db req)) = 500%Z
          /\ exists k, (k < 4)%nat /\ fails db k = true)).
    { rewrite (search_issue req query Hq Hok).
      destruct (first_failure (fails db) 4) as [Hup | (k & Hk & Hf & Hlt)].
      - left. rewrite (issue_success _ [] []); [split; [reflexivity | exact Hup]|].
        exact Hup.
      - right. rewrite (issue_failure _ [] [] k); trivial.
        split; [reflexivity | eauto]. }
    assert (Hadv : type_ok (req_type req) = true ->
      (status (fst (search_advanced db req)) = 200%Z
       /\ forall n, (n < List.length (admitted req query))%nat -> fails db n = false)
      \/ (status (fst (search_advanced db req)) = 500%Z
          /\ exists k, (k < List.length (admitted req query))%nat /\ fails db k = true)).
    { intros Hty. rewrite (search_advanced_issue req query Hq Hok Hty).
      destruct (first_failure (fails db) (List.length (admitted req query)))
        as [Hup | (k & Hk & Hf & Hlt)].
      - left. rewrite (issue_success _ [] []); [split; [reflexivity | exact Hup]|].
        exact Hup.
      - right. rewrite (issue_failure _ [] [] k); trivial.
        split; [reflexivity | eauto]. }
    destruct (type_ok (req_type req)) eqn:Hty.
    + specialize (Hadv eq_refl).
      destruct Hbasic as [[Hb Hbu] | (Hb & kb & Hkb & Hfb)];
        destruct Hadv as [[Ha Hau] | (Ha & ka & Hka & Hfa)];
        rewrite Hb, Ha; simpl;
        repeat split; try tauto; try discriminate;
        try (intros [? | ?]; discriminate);
        try (intros [_ Hall]; rewrite (Hall kb Hkb) in Hfb; discriminate);
        try (intros (query' & Hq' & _ & _ & Hall);
             assert (query' = query) by congruence; subst query';
             rewrite (Hall ka Hka) in Hfa; discriminate);
        try (intros _; exists query; repeat split; trivial).
    + rewrite (search_advanced_invalid_type req Hok Hty).
      destruct Hbasic as [[Hb Hbu] | (Hb & kb & Hkb & Hfb)];
        rewrite Hb; simpl;
        repeat split; try tauto; try discriminate;
        try (intros [? | ?]; discriminate);
        try (intros [_ Hall]; rewrite (Hall kb Hkb) in Hfb; discriminate);
        try (intros (query' & _ & _ & Hc & _); discriminate).
  - destruct (search_invalid req Hok) as [-> ->]. simpl.
    repeat split; try tauto; try discriminate;
      try (intros [? _]; discriminate);
      try (intros (query' & _ & Hc & _); discriminate).
Qed.

End Failures.

(* ===================================================================== *)
(** ** How the two endpoints and their parameters relate *)
(* ===================================================================== *)

Section Endpoints.
Import SQL Search Reference.

Variable db : Db.

(** X3. The data of a successful basic search is the rows of its four
    queries, none dropped and none repeated, arranged so that no entry
    stands before one the comparator ranks strictly first; [count] is the
    total number of matching rows (the basic search does not truncate). *)
Theorem basic_data_sorted_permutation (req : ReqQuery) (resp : Response)
    (log : list Query) :
  search db req = (resp, log) ->
  status resp = 200%Z ->
  exists query,
    req_q req = Some query
    /\ Permutation (resp_data resp) (rows_of db (basic_queries query))
    /\ StronglySorted (JS.before (relevance query)) (resp_data resp)
    /\ resp_count resp = Some (List.length (rows_of db (basic_queries query))).
Proof.
  intros Hs Hst.
  destruct (search_200 db req resp log Hs Hst) as (query & Hq & -> & ->).
  exists query. unfold resp_data, resp_count, basic_queries. cbn [body].
  split; [exact Hq|]. split; [apply sort_perm|].
  split.
  - apply sort_sorted; [apply relevance_total | apply relevance_trans].
  - f_equal. apply Permutation_length, sort_perm.
Qed.

Lemma admitted_all (req : ReqQuery) (query : string) :
  JS.truthy (req_type req) = false ->
  JS.truthy (req_category req) = false ->
  admitted req query = basic_queries query.
Proof.
  intros Hty Hcat. unfold admitted, advanced_queries, basic_queries.
  rewrite Hcat. simpl. now rewrite !wants_absent.
Qed.

Lemma slice0_whole {A : Type} (l : list A) (n : Z) :
  (Z.of_nat (List.length l) <= n)%Z -> JS.slice0 l (Some n) = l.
Proof.
  intros Hn. rewrite slice0_nonneg by lia. apply firstn_all2. lia.
Qed.

(** X4. With no type filter, no category and a limit that is not below the
    number of matches, the advanced search returns the rows of the basic
    search in merge order: sorting its data with the relevance comparator
    gives the data of the basic search for the same query. *)
Theorem basic_is_sorted_advanced (req : ReqQuery) (query : string) (n : Z) :
  reachable db ->
  req_q req = Some query ->
  query_ok (req_q req) = true ->
  JS.truthy (req_type req) = false ->
  JS.truthy (req_category req) = false ->
  parsed_limit (req_limit req) = Some n ->
  (Z.of_nat (List.length (rows_of db (basic_queries query))) <= n)%Z ->
  resp_data (fst (search_advanced db req)) = rows_of db (basic_queries query)
  /\ resp_data (fst (search db req))
     = JS.sort (relevance query) (resp_data (fst (search_advanced db req))).
Proof.
  intros Hup Hq Hok Hty Hcat Hlim Hn.
  assert (Htok : type_ok (req_type req) = true) by (unfold type_ok; now rewrite Hty).
  rewrite (search_advanced_issue db req query Hq Hok Htok).
  rewrite (search_issue db req query Hq Hok).
  rewrite (admitted_all req query Hty Hcat).
  rewrite (issue_success db _ [] []) by (intros; apply Hup).
  unfold resp_data. cbn [fst body app].
  rewrite Hlim, slice0_whole by exact Hn. split; reflexivity.
Qed.

Lemma admitted_without_skill (req req' : ReqQuery) (query : string) :
  req_type req' = req_type req ->
  wants (req_type req) "skill" = false ->
  admitted req' query = admitted req query.
Proof.
  intros Hty Hw. unfold admitted, advanced_queries. simpl filter.
  rewrite Hty, Hw. reflexivity.
Qed.

(** X5. The category parameter only reaches the skill statement: for a
    type filter profile, project or work, two requests that differ in their
    category alone issue the same queries and receive the same status,
    data and count. *)
Theorem category_ignored_outside_skill (req req' : ReqQuery) (t : string) :
  req_q req' = req_q req ->
  req_type req' = req_type req ->
  req_limit req' = req_limit req ->
  req_type req = Some t ->
  t = "profile" \/ t = "project" \/ t = "work" ->
  snd (search_advanced db req') = snd (search_advanced db req)
  /\ status (fst (search_advanced db req')) = status (fst (search_advanced db req))
  /\ resp_data (fst (search_advanced db req')) = resp_data (fst (search_advanced db req))
  /\ resp_count (fst (search_advanced db req')) = resp_count (fst (search_advanced db req)).
Proof.
  intros Hq Hty Hlim Ht Hcases.
  assert (Hw : wants (req_type req) "skill" = false /\ type_ok (req_type req) = true).
  { rewrite Ht. destruct Hcases as [-> | [-> | ->]]; split; reflexivity. }
  destruct Hw as [Hw Htok].
  destruct (query_ok (req_q req)) eqn:Hok.
  - destruct (query_ok_inv _ Hok) as (query & Hq0 & _).
    rewrite (search_advanced_issue db req query Hq0 Hok Htok).
    rewrite (search_advanced_issue db req' query); try congruence.
    rewrite (admitted_without_skill req req' query Hty Hw), Hlim.
    destruct (issue db (admitted req query) [] []) as [[merged|] log'];
      repeat split; reflexivity.
  - destruct (search_invalid db req Hok) as [_ ->].
    rewrite <- Hq in Hok. destruct (search_invalid db req' Hok) as [_ ->].
    repeat split; reflexivity.
Qed.

(** X6. An empty type or category parameter is handled exactly like an
    absent one: the whole response and the queries issued coincide. *)
Theorem empty_parameter_is_absent (q ty cat lim : option string) :
  search_advanced db {| req_q := q; req_type := Some EmptyString;
                        req_category := cat; req_limit := lim |}
  = search_advanced db {| req_q := q; req_type := None;
                          req_category := cat; req_limit := lim |}
  /\ search_advanced db {| req_q := q; req_type := ty;
                           req_category := Some EmptyString; req_limit := lim |}
     = search_advanced db {| req_q := q; req_type := ty;
                             req_category := None; req_limit := lim |}.
Proof.
  split; reflexivity.
Qed.

Lemma slice0_negative {A : Type} (l : list A) (n : Z) :
  (n < 0)%Z ->
  JS.slice0 l (Some n) = firstn (List.length l - Z.to_nat (- n)) l.
Proof.
  intros Hn. unfold JS.slice0.
  destruct (Z.ltb_spec n 0) as [_ | Hge]; [|lia].
  f_equal. lia.
Qed.

(** X7. A limit that parses to a negative number -k is handed to [slice]
    unchanged, so a successful advanced search returns the merged rows
    without their last k entries, and nothing when there are at most k. *)
Theorem negative_limit_drops_tail (req : ReqQuery) (resp : Response)
    (log : list Query) (n : Z) :
  search_advanced db req = (resp, log) ->
  status resp = 200%Z ->
  parsed_limit (req_limit req) = Some n ->
  (n < 0)%Z ->
  resp_data resp
  = firstn (List.length (rows_of db log) - Z.to_nat (- n)) (rows_of db log)
  /\ resp_count resp = Some (List.length (rows_of db log) - Z.to_nat (- n))%nat.
Proof.
  intros Hs Hst Hlim Hn.
  destruct (search_advanced_200 db req resp log Hs Hst) as (query & _ & _ & ->).
  unfold resp_data, resp_count. cbn [body].
  rewrite Hlim, slice0_negative by exact Hn.
  split; [reflexivity|]. f_equal. rewrite length_firstn. lia.
Qed.

End Endpoints.

(* ===================================================================== *)
(** ** What the LIKE patterns of the search match *)
(* ===================================================================== *)

Section Matching.
Import SQL Search Reference.

Variable coll : ascii -> ascii.

Lemma like_any_unfold (ts : list LikeToken) (s : string) :
  like_match coll (AnyString :: ts) s =
  like_match coll ts s
  || match s with
     | EmptyString => false
     | String _ s' => like_match coll (AnyString :: ts) s'
     end.
Proof.
  destruct s; reflexivity.
Qed.

(** A leading [%] lets the rest of the pattern start anywhere. *)
Lemma like_any (ts : list LikeToken) (s : string) :
  like_match coll (AnyString :: ts) s = true <->
  exists pre rest, s = String.append pre rest /\ like_match coll ts rest = true.
Proof.
  induction s as [|c s IH]; rewrite like_any_unfold, orb_true_iff.
  - split.
    + intros [H | H]; [|discriminate]. now exists EmptyString, EmptyString.
    + intros (pre & rest & Hs & H). left.
      destruct pre; simpl in Hs; [now subst | discriminate].
  - split.
    + intros [H | H].
      * now exists EmptyString, (String c s).
      * apply IH in H. destruct H as (pre & rest & -> & H).
        now exists (String c pre), rest.
    + intros (pre & rest & Hs & H).
      destruct pre as [|c' pre]; simpl in Hs.
      * left. now subst.
      * right. inversion Hs; subst. apply IH. eauto.
Qed.

Lemma like_trailing_any (s : string) : like_match coll [AnyString] s = true.
Proof.
  induction s as [|c s IH]; rewrite like_any_unfold; [reflexivity|].
  now rewrite IH, orb_true_r.
Qed.

Lemma collation_key_empty (s : string) :
  collation_key coll s = EmptyString -> s = EmptyString.
Proof.
  destruct s; [reflexivity | discriminate].
Qed.

(** A run of literal characters matches a prefix with the same collation
    key. *)
Lemma like_literals (q : string) (ts : list LikeToken) (s : string) :
  like_match coll (map Literal (list_ascii_of_string q) ++ ts) s = true <->
  exists mid rest,
    s = String.append mid rest
    /\ collation_key coll mid = collation_key coll q
    /\ like_match coll ts rest = true.
Proof.
  revert s. induction q as [|c q IH]; intros s; simpl.
  - split.
    + intros H. now exists EmptyString, s.
    + intros (mid & rest & -> & Hk & H).
      apply collation_key_empty in Hk. now subst.
  - destruct s as [|d s].
    + split; [discriminate|].
      intros (mid & rest & Hs & Hk & _).
      destruct mid; simpl in *; discriminate.
    + rewrite andb_true_iff, IH, Ascii.eqb_eq. split.
      * intros (Hc & mid & rest & -> & Hk & H).
        exists (String d mid), rest. simpl. repeat split; congruence.
      * intros (mid & rest & Hs & Hk & H).
        destruct mid as [|d' mid]; simpl in Hk; [discriminate|].
        simpl in Hs. inversion Hs; subst. inversion Hk.
        split; [congruence|]. now exists mid, rest.
Qed.

Lemma like_tokens_plain (q r : string) :
  plain q = true ->
  like_tokens (String.append q r)
  = map Literal (list_ascii_of_string q) ++ like_tokens r.
Proof.
  induction q as [|c q IH]; intros Hp; [reflexivity|].
  unfold plain in Hp. simpl in Hp. apply andb_true_iff in Hp. destruct Hp as [Hc Hp].
  unfold is_wildcard in Hc. rewrite !negb_orb, !andb_true_iff, !negb_true_iff in Hc.
  destruct Hc as [[H1 H2] H3].
  simpl. rewrite H1, H2, H3. f_equal. now apply IH.
Qed.

(** For a query without wildcard characters, [column LIKE '%query%'] is
    true exactly when the column is not NULL and contains the query up to
    the collation. *)
Lemma where_like_occurs (query : string) (v : option string) :
  plain (JS.trim query) = true ->
  where_ (sql_like coll v (searchTerm query)) = true <-> occurs coll (JS.trim query) v.
Proof.
  intros Hp. unfold occurs, sql_like, searchTerm.
  destruct v as [s|].
  - change (like_tokens (String.append "%" (String.append (JS.trim query) "%")))
      with (AnyString :: like_tokens (String.append (JS.trim query) "%")).
    rewrite (like_tokens_plain _ _ Hp).
    change (like_tokens "%") with [AnyString].
    destruct (like_match coll
                (AnyString :: map Literal (list_ascii_of_string (JS.trim query))
                              ++ [AnyString]) s) eqn:E; unfold where_.
    + split; [intros _ | reflexivity].
      apply like_any in E. destruct E as (pre & rest & -> & E).
      apply like_literals in E. destruct E as (mid & post & -> & Hk & _).
      exists (String.append pre (String.append mid post)), pre, mid, post. auto.
    + split; [discriminate|].
      intros (s' & pre & mid & post & Hs & -> & Hk). inversion Hs; subst.
      assert (like_match coll
                (AnyString :: map Literal (list_ascii_of_string (JS.trim query))
                              ++ [AnyString])
                (String.append pre (String.append mid post)) = true) as E'.
      { apply like_any. exists pre, (String.append mid post). split; [reflexivity|].
        apply like_literals. exists mid, post.
        repeat split; trivial. apply like_trailing_any. }
      congruence.
  - unfold where_. split; [discriminate|].
    intros (s' & pre & mid & post & Hs & _). discriminate.
Qed.

Lemma where_or (a b : sql_bool) :
  where_ (sql_or a b) = true <-> where_ a = true \/ where_ b = true.
Proof.
  destruct a as [[|]|], b as [[|]|]; simpl; intuition discriminate.
Qed.

Lemma like_tokens_percent (s : string) :
  only_percent s = true -> like_tokens s = repeat AnyString (String.length s).
Proof.
  induction s as [|c s IH]; intros Hp; [reflexivity|].
  unfold only_percent in Hp. simpl in Hp. apply andb_true_iff in Hp.
  destruct Hp as [Hc Hp]. apply Ascii.eqb_eq in Hc. subst c.
  simpl. f_equal. now apply IH.
Qed.

Lemma like_all_any (n : nat) (s : string) :
  like_match coll (repeat AnyString (S n)) s = true.
Proof.
  induction n as [|n IH].
  - apply like_trailing_any.
  - change (repeat AnyString (S (S n))) with (AnyString :: repeat AnyString (S n)).
    now rewrite like_any_unfold, IH.
Qed.

Lemma only_percent_searchTerm (query : string) (s : string) :
  only_percent (JS.trim query) = true ->
  sql_like coll (Some s) (searchTerm query) = Some true.
Proof.
  intros Hp. unfold sql_like, searchTerm.
  change (like_tokens (String.append "%" (String.append (JS.trim query) "%")))
    with (AnyString :: like_tokens (String.append (JS.trim query) "%")).
  assert (Hall : only_percent (String.append (JS.trim query) "%") = true).
  { revert Hp. generalize (JS.trim query) as t.
    induction t as [|c t IH]; [reflexivity|].
    unfold only_percent. simpl. rewrite !andb_true_iff.
    intros [Hc Hp]. split; [exact Hc | now apply IH]. }
  rewrite (like_tokens_percent _ Hall).
  change (AnyString :: repeat AnyString (String.length (String.append (JS.trim query) "%")))
    with (repeat AnyString (S (String.length (String.append (JS.trim query) "%")))).
  now rewrite like_all_any.
Qed.

End Matching.

Section Coverage.
Import SQL Search Reference.

Variable db : Db.

Lemma filter_all {A : Type} (f : A -> bool) (l : list A) :
  (forall x, In x l -> f x = true) -> filter f l = l.
Proof.
  induction l as [|x l IH]; intros H; simpl; [reflexivity|].
  rewrite (H x) by now left.
  f_equal. apply IH. intros y Hy. apply H. now right.
Qed.

Lemma basic_rows_split (query : string) (row : ResultRow) :
  In row (rows_of db (basic_queries query)) <->
  In row (run_query (collation db) (store db) (SelectProfile (searchTerm query)))
  \/ In row (run_query (collation db) (store db) (SelectSkills (searchTerm query) None))
  \/ In row (run_query (collation db) (store db) (SelectProjects (searchTerm query)))
  \/ In row (run_query (collation db) (store db) (SelectWork (searchTerm query))).
Proof.
  unfold rows_of, basic_queries. cbn [flat_map].
  rewrite !in_app_iff. simpl In. tauto.
Qed.

(** X8. The wildcard characters of the query are not escaped: for a query
    that consists of percent signs only, a successful basic search returns
    every row of the four tables, and [count] is the size of the store. *)
Theorem percent_query_returns_everything (req : ReqQuery) (resp : Response)
    (log : list Query) (query : string) :
  search db req = (resp, log) ->
  status resp = 200%Z ->
  req_q req = Some query ->
  only_percent (JS.trim query) = true ->
  Permutation (resp_data resp) (every_row (store db))
  /\ resp_count resp =
     Some (List.length (profile (store db)) + List.length (skills (store db))
           + List.length (projects (store db))
           + List.length (work_experience (store db)))%nat.
Proof.
  intros Hs Hst Hq Hp.
  destruct (search_200 db req resp log Hs Hst) as (query' & Hq' & -> & ->).
  assert (query' = query) as -> by congruence.
  assert (Hrows :
    rows_of db [SelectProfile (searchTerm query); SelectSkills (searchTerm query) None;
                SelectProjects (searchTerm query); SelectWork (searchTerm query)]
    = every_row (store db)).
  { unfold rows_of, every_row. cbn [flat_map run_query]. rewrite app_nil_r.
    rewrite !filter_all; [reflexivity | | | |]; intros r _;
      unfold work_where, project_where, skill_where, profile_where;
      rewrite !(only_percent_searchTerm (collation db) query _ Hp); reflexivity. }
  unfold resp_data, resp_count. cbn [body]. rewrite Hrows. split.
  - apply sort_perm.
  - f_equal. rewrite (Permutation_length (sort_perm _ _)).
    unfold every_row. rewrite !length_app, !length_map. lia.
Qed.

(** X9. For a query whose trimmed form has no wildcard character, a
    successful basic search returns exactly the projections of the rows
    one of whose searched columns contains the trimmed query up to the
    collation: name, email or education of a profile; name or category of
    a skill; title or description of a project; company, position or
    description of a work entry. *)
Theorem search_finds_substrings (req : ReqQuery) (resp : Response)
    (log : list Query) (query : string) (row : ResultRow) :
  search db req = (resp, log) ->
  status resp = 200%Z ->
  req_q req = Some query ->
  plain (JS.trim query) = true ->
  let has := occurs (collation db) (JS.trim query) in
  In row (resp_data resp) <->
  (exists r, In r (profile (store db)) /\ row = profile_result r
     /\ (has (Some (profile_name r)) \/ has (Some (profile_email r))
         \/ has (profile_education r)))
  \/ (exists r, In r (skills (store db)) /\ row = skill_result r
        /\ (has (Some (skill_name r)) \/ has (skill_category r)))
  \/ (exists r, In r (projects (store db)) /\ row = project_result r
        /\ (has (Some (project_title r)) \/ has (project_description r)))
  \/ (exists r, In r (work_experience (store db)) /\ row = work_result r
        /\ (has (Some (work_company r)) \/ has (Some (work_position r))
            \/ has (work_description r))).
Proof.
  intros Hs Hst Hq Hp has.
  destruct (search_200 db req resp log Hs Hst) as (query' & Hq' & -> & ->).
  assert (query' = query) as -> by congruence.
  unfold resp_data. cbn [body].
  assert (Hin : In row (JS.sort (relevance query) (rows_of db (basic_queries query)))
                <-> In row (rows_of db (basic_queries query))).
  { split; apply Permutation_in;
      [|apply Permutation_sym]; apply sort_perm. }
  unfold basic_queries in Hin at 1. rewrite Hin, basic_rows_split.
  unfold run_query, has.
  rewrite !in_map_iff.
  unfold profile_where, skill_where, project_where, work_where.
  repeat match goal with
         | |- (_ \/ _) <-> (_ \/ _) => apply or_iff_compat_l || idtac
         end.
  split.
  - intros [(r & <- & Hr) | [(r & <- & Hr) | [(r & <- & Hr) | (r & <- & Hr)]]];
      apply filter_In in Hr; destruct Hr as [Hr Hw];
      rewrite !where_or, !(where_like_occurs _ _ _ Hp) in Hw;
      [left | right; left | right; right; left | right; right; right];
      exists r; repeat split; trivial; tauto.
  - intros [(r & Hr & -> & Hw) | [(r & Hr & -> & Hw) | [(r & Hr & -> & Hw)
                                                       | (r & Hr & -> & Hw)]]];
      [left | right; left | right; right; left | right; right; right];
      exists r; (split; [reflexivity|]); apply filter_In; (split; [exact Hr|]);
      rewrite !where_or, !(where_like_occurs _ _ _ Hp); tauto.
Qed.

End Coverage.

(* ===================================================================== *)
(** ** database/db.js: pool life cycle and connection handling *)
(* ===================================================================== *)

Section Pool.
Import Database.

Variable Row : Type.
Variable drv : Driver Row.

(** X10. Before [initialize] has set the pool, [run], [get] and [all]
    throw the not-initialized error without making any driver call: no
    connection is asked for and no statement is sent. *)
Theorem helpers_throw_before_initialize (sql : string) (params : list string)
    (w : World) :
  pool w = None ->
  run Row drv sql params w
    = (Throw "Database not initialized. Call initialize() first.", w)
  /\ get Row drv sql params w
    = (Throw "Database not initialized. Call initialize() first.", w)
  /\ all Row drv sql params w
    = (Throw "Database not initialized. Call initialize() first.", w).
Proof.
  intros Hp. unfold run, get, all, bind, getPool. rewrite Hp. repeat split.
Qed.

Lemma checkin_checkout (p : PoolState) : checkin (checkout p) = p.
Proof.
  destruct p. reflexivity.
Qed.

(** X11. [run], [get] and [all] hand back the connection they take in
    every outcome: whether the call returns or throws (no pool, no
    connection, or a failing statement), the pool is left as it was, and a
    statement is sent only once a connection was obtained. *)
Theorem helpers_release_connection (sql : string) (params : list string) (w : World) :
  (pool (snd (run Row drv sql params w)) = pool w
   /\ pool (snd (get Row drv sql params w)) = pool w
   /\ pool (snd (all Row drv sql params w)) = pool w)
  /\ (pool w = None \/ on_connect Row drv (clock w) <> None ->
      sent (snd (run Row drv sql params w)) = sent w
      /\ sent (snd (get Row drv sql params w)) = sent w
      /\ sent (snd (all Row drv sql params w)) = sent w)
  /\ (pool w <> None -> on_connect Row drv (clock w) = None ->
      sent (snd (run Row drv sql params w)) = sent w ++ [(sql, params)]
      /\ sent (snd (get Row drv sql params w)) = sent w ++ [(sql, params)]
      /\ sent (snd (all Row drv sql params w)) = sent w ++ [(sql, params)]).
Proof.
  unfold run, get, all, bind, getPool, getConnection, finally, query, execute, release, ret.
  destruct (pool w) as [p|] eqn:Hp.
  - destruct (on_connect Row drv (clock w)) as [m|] eqn:Hc; simpl.
    + rewrite Hp. split; [auto|]. split; [auto | intros _ H; discriminate].
    + destruct (on_execute Row drv (S (clock w)) (sql, params));
        destruct (on_query Row drv (S (clock w)) (sql, params));
        simpl; rewrite ?Hp; simpl; rewrite ?checkin_checkout;
        (split; [auto|]); (split; [intros [H | H]; congruence | auto]).
  - simpl. rewrite Hp. split; [auto|]. split; [auto | intros H; congruence].
Qed.

(** X12. [get] is [all] followed by taking the first row: on the same
    world it makes the same driver calls, leaves the same world, throws
    the same error when [all] throws, and otherwise returns the first row
    of what [all] returns, or null when there is none. *)
Theorem get_is_first_row_of_all (sql : string) (params : list string) (w : World) :
  snd (get Row drv sql params w) = snd (all Row drv sql params w)
  /\ fst (get Row drv sql params w)
     = match fst (all Row drv sql params w) with
       | Ok rows => Ok (hd_error rows)
       | Throw message => Throw message
       end.
Proof.
  unfold get, all, bind, getPool, getConnection, finally, query, release, ret.
  destruct (pool w) as [p|]; [|split; reflexivity].
  destruct (on_connect Row drv (clock w)) as [m|]; [split; reflexivity|].
  simpl. destruct (on_query Row drv (S (clock w)) (sql, params)); split; reflexivity.
Qed.

Lemma create_schema_total (sts : list string) (w : World) :
  Forall (fun st => JS.truthy (Some (JS.trim st)) = true) sts ->
  exists w',
    create_schema Row drv sts w = (Ok tt, w')
    /\ pool w' = pool w
    /\ sent w' = sent w ++ map (fun st => (st, [])) sts.
Proof.
  intros Hall. revert w. induction Hall as [|st sts Hst _ IH]; intros w.
  - exists w. simpl. unfold ret. now rewrite app_nil_r.
  - simpl. unfold bind, create_statement. rewrite Hst. unfold query.
    destruct (on_query Row drv (clock w) (st, [])) as [m | rows].
    + destruct (negb (includes_text m "Duplicate key name"));
        match goal with |- context [create_schema Row drv sts ?w0] =>
          destruct (IH w0) as (w' & -> & Hp & Hs) end;
        exists w'; (split; [reflexivity|]); rewrite Hp, Hs; simpl;
        now rewrite <- app_assoc.
    + match goal with |- context [create_schema Row drv sts ?w0] =>
        destruct (IH w0) as (w' & -> & Hp & Hs) end.
      exists w'. split; [reflexivity|]. rewrite Hp, Hs. simpl.
      now rewrite <- app_assoc.
Qed.

Lemma statements_nonblank (text : string) :
  Forall (fun st => JS.truthy (Some (JS.trim st)) = true) (statements text).
Proof.
  apply Forall_forall. intros st Hst. unfold statements in Hst.
  apply filter_In in Hst. tauto.
Qed.

(** X13. Once the connection is obtained and CREATE DATABASE and USE
    succeed, [initialize] completes whatever the schema statements do: an
    error of any of them is caught, every statement of the schema is still
    sent in order, and the connection is released. *)
Theorem initialize_tolerates_schema_errors (DB_NAME : option string) (w : World)
    (rows1 rows2 : list Row) :
  on_connect Row drv (clock w) = None ->
  on_query Row drv (S (clock w))
    (String.append "CREATE DATABASE IF NOT EXISTS " (database DB_NAME), []) = inr rows1 ->
  on_query Row drv (S (S (clock w)))
    (String.append "USE " (database DB_NAME), []) = inr rows2 ->
  exists w',
    initialize Row drv DB_NAME w = (Ok tt, w')
    /\ pool w' = Some {| busy := 0; ended := false |}
    /\ sent w' =
       sent w
       ++ [ (String.append "CREATE DATABASE IF NOT EXISTS " (database DB_NAME), []);
            (String.append "USE " (database DB_NAME), []) ]
       ++ map (fun st => (st, [])) (statements schema).
Proof.
  intros Hc H1 H2.
  unfold initialize.
  generalize (statements_nonblank schema). generalize (statements schema).
  generalize (String.append "CREATE DATABASE IF NOT EXISTS " (database DB_NAME)) H1.
  generalize (String.append "USE " (database DB_NAME)) H2.
  clear H1 H2. intros use H2 create H1 sts Hnb.
  unfold bind, getConnection, query.
  cbn [pool clock sent console tick with_pool send print]. rewrite Hc.
  cbn [pool clock sent console tick with_pool send print]. rewrite H1.
  cbn [pool clock sent console tick with_pool send print]. rewrite H2.
  match goal with |- context [create_schema Row drv sts ?w0] =>
    destruct (create_schema_total sts w0 Hnb) as (w' & -> & Hp & Hs) end.
  eexists. split; [reflexivity|].
  unfold release. cbn [pool clock sent console tick with_pool send print].
  rewrite Hp, Hs.
  cbn [pool clock sent console tick with_pool send print option_map checkin checkout
       busy ended Nat.pred].
  split; [reflexivity|]. now rewrite <- !app_assoc.
Qed.

(** X14. When [initialize] fails it rethrows the error and leaves the pool
    variable set, so a later [getPool] does not report a missing
    initialization.  If [getConnection] rejects, nothing was sent; if
    CREATE DATABASE or USE rejects, the catch block does not release the
    connection (one connection stays checked out) and no schema statement
    is sent. *)
Theorem initialize_failure (DB_NAME : option string) (w : World) (message : string) :
  (on_connect Row drv (clock w) = Some message ->
   exists w',
     initialize Row drv DB_NAME w = (Throw message, w')
     /\ pool w' = Some {| busy := 0; ended := false |}
     /\ sent w' = sent w
     /\ getPool w' = (Ok tt, w'))
  /\ (on_connect Row drv (clock w) = None ->
      on_query Row drv (S (clock w))
        (String.append "CREATE DATABASE IF NOT EXISTS " (database DB_NAME), [])
        = inl message ->
      exists w',
        initialize Row drv DB_NAME w = (Throw message, w')
        /\ pool w' = Some {| busy := 1; ended := false |}
        /\ sent w' =
           sent w
           ++ [(String.append "CREATE DATABASE IF NOT EXISTS " (database DB_NAME), [])]
        /\ getPool w' = (Ok tt, w'))
  /\ (forall rows,
      on_connect Row drv (clock w) = None ->
      on_query Row drv (S (clock w))
        (String.append "CREATE DATABASE IF NOT EXISTS " (database DB_NAME), [])
        = inr rows ->
      on_query Row drv (S (S (clock w)))
        (String.append "USE " (database DB_NAME), []) = inl message ->
      exists w',
        initialize Row drv DB_NAME w = (Throw message, w')
        /\ pool w' = Some {| busy := 1; ended := false |}
        /\ sent w' =
           sent w
           ++ [ (String.append "CREATE DATABASE IF NOT EXISTS " (database DB_NAME), []);
                (String.append "USE " (database DB_NAME), []) ]
        /\ getPool w' = (Ok tt, w')).
Proof.
  unfold initialize.
  generalize (statements schema).
  generalize (String.append "CREATE DATABASE IF NOT EXISTS " (database DB_NAME)).
  generalize (String.append "USE " (database DB_NAME)).
  intros use create sts.
  split; [|split].
  - intros Hc. unfold bind, getConnection.
    cbn [pool clock sent console tick with_pool send print]. rewrite Hc.
    eexists. split; [reflexivity|]. repeat split.
  - intros Hc H1. unfold bind, getConnection, query.
    cbn [pool clock sent console tick with_pool send print]. rewrite Hc.
    cbn [pool clock sent console tick with_pool send print]. rewrite H1.
    eexists. split; [reflexivity|]. repeat split.
  - intros rows Hc H1 H2. unfold bind, getConnection, query.
    cbn [pool clock sent console tick with_pool send print]. rewrite Hc.
    cbn [pool clock sent console tick with_pool send print]. rewrite H1.
    cbn [pool clock sent console tick with_pool send print]. rewrite H2.
    eexists. split; [reflexivity|].
    cbn [pool clock sent console tick with_pool send print].
    rewrite <- app_assoc. repeat split.
Qed.

(** X15. [close] does nothing before [initialize]; on an initialized pool
    whose [end()] completes it ends the pool but keeps the module variable,
    so [getPool] still returns the ended pool instead of throwing. *)
Theorem close_keeps_pool_variable (w : World) :
  (pool w = None -> close Row drv w = (Ok tt, w))
  /\ (forall p, pool w = Some p -> on_end Row drv (clock w) = None ->
      exists w',
        close Row drv w = (Ok tt, w')
        /\ pool w' = Some {| busy := busy p; ended := true |}
        /\ getPool w' = (Ok tt, w')).
Proof.
  unfold close. split.
  - intros ->. reflexivity.
  - intros p -> ->. eexists. split; [reflexivity|]. split; reflexivity.
Qed.

End Pool.

Section Statements.
Import Database Reference.

Lemma split_nonempty (sep : ascii) (s : string) : split sep s <> [].
Proof.
  destruct s as [|c s]; simpl; [discriminate|].
  destruct (Ascii.eqb c sep); [discriminate|].
  destruct (split sep s); discriminate.
Qed.

Lemma join_cons_char (sep c : ascii) (piece : string) (pieces : list string) :
  join sep (String c piece :: pieces) = String c (join sep (piece :: pieces)).
Proof.
  destruct pieces; reflexivity.
Qed.

Lemma join_split (sep : ascii) (s : string) : join sep (split sep s) = s.
Proof.
  induction s as [|c s IH]; [reflexivity|].
  simpl split. destruct (Ascii.eqb_spec c sep) as [-> | Hne].
  - pose proof (split_nonempty sep s) as Hne.
    destruct (split sep s) as [|piece pieces] eqn:E; [contradiction|].
    change (join sep (EmptyString :: piece :: pieces))
      with (String sep (join sep (piece :: pieces))).
    now rewrite IH.
  - pose proof (split_nonempty sep s) as Hs.
    destruct (split sep s) as [|piece pieces] eqn:E; [contradiction|].
    now rewrite join_cons_char, IH.
Qed.

Lemma split_pieces_free (sep : ascii) (s piece : string) :
  In piece (split sep s) ->
  all_chars (fun c => negb (Ascii.eqb c sep)) piece = true.
Proof.
  revert piece. induction s as [|c s IH]; intros piece; simpl.
  - intros [<- | []]. reflexivity.
  - destruct (Ascii.eqb c sep) eqn:Hc.
    + intros [<- | H]; [reflexivity | now apply IH].
    + destruct (split sep s) as [|p ps] eqn:E.
      * intros [<- | []]. simpl. now rewrite Hc.
      * intros [<- | H].
        -- simpl. rewrite Hc. simpl. apply IH. now left.
        -- apply IH. now right.
Qed.

(** X16. Splitting the schema at semicolons loses nothing: joining the
    pieces with semicolons gives the text back.  The statements that
    [initialize] runs are the pieces whose trimmed text is not empty, in
    the order of the text; none of them contains a semicolon, so the inner
    blank check of the loop never skips one. *)
Theorem statements_of_schema_text (text : string) :
  join ";" (split ";" text) = text
  /\ statements text
     = filter (fun st => negb (String.eqb (JS.trim st) EmptyString)) (split ";" text)
  /\ forall st, In st (statements text) ->
       JS.trim st <> EmptyString
       /\ all_chars (fun c => negb (Ascii.eqb c ";")) st = true
       /\ forall (Row : Type) (drv : Driver Row) (w : World),
            sent (snd (create_statement Row drv st w)) = sent w ++ [(st, [])].
Proof.
  split; [apply join_split|]. split; [reflexivity|].
  intros st Hst. unfold statements in Hst. apply filter_In in Hst.
  destruct Hst as [Hin Hnb].
  split; [|split].
  - simpl in Hnb. apply negb_true_iff in Hnb. now apply String.eqb_neq.
  - now apply split_pieces_free with text.
  - intros Row drv w. unfold create_statement. rewrite Hnb. unfold query.
    destruct (on_query Row drv (clock w) (st, [])) as [m|rows]; [|reflexivity].
    destruct (negb (includes_text m "Duplicate key name")); reflexivity.
Qed.

End Statements.

(* ===================================================================== *)
(** ** The further properties at concrete inputs *)
(* ===================================================================== *)

Section MoreWitnesses.
Import SQL Search Reference Sample.

Example schema_statements_ex :
  List.length (Database.statements Database.schema) = 10%nat
  /\ Database.split ";" "a;b;" = ["a"; "b"; EmptyString]
  /\ Database.statements "a; ;b;" = ["a"; "b"].
Proof. repeat split; vm_compute; reflexivity. Qed.

Lemma query_failure_500_witness :
  search db_down (request (Some "react") None None None)
  = (internal_error "Failed to perform search", [SelectProfile "%react%"])
  /\ search_advanced db_down (request (Some "react") (Some "work") None None)
     = (internal_error "Failed to perform advanced search", [SelectWork "%react%"]).
Proof.
  split.
  - apply (proj1 (query_failure_500 db_down (request (Some "react") None None None)
                    "react" 0 eq_refl eq_refl
                    ltac:(intros n Hn; lia) eq_refl)).
    lia.
  - apply (proj2 (query_failure_500 db_down
                    (request (Some "react") (Some "work") None None)
                    "react" 0 eq_refl eq_refl
                    ltac:(intros n Hn; lia) eq_refl)).
    + reflexivity.
    + vm_compute. lia.
Defined.

Lemma status_classification_witness :
  status (fst (search db (request (Some "react") None None None))) = 200%Z.
Proof.
  apply (proj2 (proj1 (proj2 (proj2 (proj2
           (status_classification db (request (Some "react") None None None))))))).
  split; [reflexivity | intros n Hn; reflexivity].
Defined.

Lemma basic_data_sorted_permutation_witness :
  exists query,
    Some "React" = Some query
    /\ Permutation (resp_data (fst (search db (request (Some "React") None None None))))
         (rows_of db (basic_queries query))
    /\ StronglySorted (JS.before (relevance query))
         (resp_data (fst (search db (request (Some "React") None None None))))
    /\ resp_count (fst (search db (request (Some "React") None None None)))
       = Some (List.length (rows_of db (basic_queries query))).
Proof.
  apply (basic_data_sorted_permutation db (request (Some "React") None None None)
           (fst (search db (request (Some "React") None None None)))
           (snd (search db (request (Some "React") None None None)))).
  - apply surjective_pairing.
  - reflexivity.
Defined.

Lemma basic_is_sorted_advanced_witness :
  resp_data (fst (search db (request (Some "React") None None None)))
  = JS.sort (relevance "React")
      (resp_data (fst (search_advanced db (request (Some "React") None None None)))).
Proof.
  apply (basic_is_sorted_advanced db (request (Some "React") None None None) "React" 20).
  - exact sample_db_reachable.
  - reflexivity.
  - reflexivity.
  - reflexivity.
  - reflexivity.
  - reflexivity.
  - vm_compute. discriminate.
Defined.

Lemma category_ignored_outside_skill_witness :
  resp_data (fst (search_advanced db
                    (request (Some "React") (Some "project") (Some "Backend") None)))
  = resp_data (fst (search_advanced db
                      (request (Some "React") (Some "project") None None))).
Proof.
  apply (category_ignored_outside_skill db
           (request (Some "React") (Some "project") None None)
           (request (Some "React") (Some "project") (Some "Backend") None)
           "project" eq_refl eq_refl eq_refl eq_refl).
  right. left. reflexivity.
Defined.

Lemma negative_limit_drops_tail_witness :
  List.length (rows_of db (snd (search_advanced db
                                  (request (Some "React") None None (Some "-1"))))) = 3%nat
  /\ map title (resp_data (fst (search_advanced db
                                  (request (Some "React") None None (Some "-1")))))
     = ["React"; "React Native"].
Proof.
  split; [reflexivity|].
  rewrite (proj1 (negative_limit_drops_tail db
                    (request (Some "React") None None (Some "-1"))
                    (fst (search_advanced db (request (Some "React") None None (Some "-1"))))
                    (snd (search_advanced db (request (Some "React") None None (Some "-1"))))
                    (-1)%Z (surjective_pairing _) eq_refl eq_refl eq_refl)).
  reflexivity.
Defined.

Lemma percent_query_returns_everything_witness :
  resp_count (fst (search db (request (Some "%%") None None None))) = Some 7%nat.
Proof.
  apply (percent_query_returns_everything db (request (Some "%%") None None None)
           (fst (search db (request (Some "%%") None None None)))
           (snd (search db (request (Some "%%") None None None)))
           "%%" (surjective_pairing _) eq_refl eq_refl eq_refl).
Defined.

Lemma search_finds_substrings_witness :
  In (project_result {| project_id := 1; project_title := "React Native";
                        project_description := Some "Mobile client" |})
     (resp_data (fst (search db (request (Some " native ") None None None)))).
Proof.
  apply (proj2 (search_finds_substrings db (request (Some " native ") None None None)
                  (fst (search db (request (Some " native ") None None None)))
                  (snd (search db (request (Some " native ") None None None)))
                  " native " _ (surjective_pairing _) eq_refl eq_refl eq_refl)).
  right. right. left.
  exists {| project_id := 1; project_title := "React Native";
            project_description := Some "Mobile client" |}.
  split; [simpl; tauto|]. split; [reflexivity|].
  left. exists "React Native", "React ", "Native", EmptyString.
  repeat split.
Defined.

End MoreWitnesses.

Section DatabaseWitnesses.
Import Database SampleDriver.

Lemma helpers_throw_before_initialize_witness :
  all SQL.ResultRow up "SELECT * FROM skills" [] fresh
  = (Throw "Database not initialized. Call initialize() first.", fresh).
Proof.
  apply (helpers_throw_before_initialize SQL.ResultRow up "SELECT * FROM skills" [] fresh).
  reflexivity.
Defined.

Lemma helpers_release_connection_witness :
  pool (snd (all SQL.ResultRow rejecting "SELECT * FROM skills" [] ready)) = pool ready
  /\ sent (snd (all SQL.ResultRow up "SELECT * FROM skills" [] ready))
     = [("SELECT * FROM skills", [])].
Proof.
  split.
  - apply (helpers_release_connection SQL.ResultRow rejecting
             "SELECT * FROM skills" [] ready).
  - apply (proj2 (proj2 (helpers_release_connection SQL.ResultRow up
                           "SELECT * FROM skills" [] ready)));
      [discriminate | reflexivity].
Defined.

Lemma initialize_tolerates_schema_errors_witness :
  exists w',
    initialize SQL.ResultRow rejecting None fresh = (Ok tt, w')
    /\ pool w' = Some {| busy := 0; ended := false |}.
Proof.
  destruct (initialize_tolerates_schema_errors SQL.ResultRow rejecting None fresh [] []
              eq_refl eq_refl eq_refl) as (w' & H1 & H2 & _).
  exists w'. split; assumption.
Defined.

Lemma initialize_failure_witness :
  exists w',
    initialize SQL.ResultRow refusing None fresh = (Throw "connect ECONNREFUSED", w')
    /\ pool w' = Some {| busy := 0; ended := false |}.
Proof.
  destruct (proj1 (initialize_failure SQL.ResultRow refusing None fresh
                     "connect ECONNREFUSED") eq_refl) as (w' & H1 & H2 & _).
  exists w'. split; assumption.
Defined.

Lemma close_keeps_pool_variable_witness :
  close SQL.ResultRow up fresh = (Ok tt, fresh)
  /\ exists w',
       close SQL.ResultRow up ready = (Ok tt, w')
       /\ pool w' = Some {| busy := 0; ended := true |}.
Proof.
  split.
  - apply (proj1 (close_keeps_pool_variable SQL.ResultRow up fresh)). reflexivity.
  - destruct (proj2 (close_keeps_pool_variable SQL.ResultRow up ready)
                {| busy := 0; ended := false |} eq_refl eq_refl) as (w' & H1 & H2 & _).
    exists w'. split; assumption.
Defined.

Lemma statements_of_schema_text_witness :
  JS.trim "b" <> EmptyString.
Proof.
  apply (proj2 (proj2 (statements_of_schema_text "a; ;b;")) "b").
  vm_compute. tauto.
Defined.

End DatabaseWitnesses.

(* ===================================================================== *)
(** ** The status of a response for a q of any shape *)
(* ===================================================================== *)

Section AnyQuery.
Import SQL Search Reference Raw.

Variable db : Db.

(** X2. For a [q] of any shape (type, category and limit being strings or
    absent) the status of a response is 200, 400 or 500.  A [q] that is an
    array or object is answered 500 without any query, because
    [query.trim()] throws.  Otherwise the status is 400 exactly when
    validation fails (a missing or short query; for the advanced search
    also a non-empty type outside the four values), 200 exactly when
    validation passes and every query of the request is answered, and 500
    exactly when validation passes and a query of the request throws. *)
Theorem status_of_any_query (q : Param) (req : ReqQuery) :
  (In (status (fst (search_any db q req))) [200%Z; 400%Z; 500%Z]
   /\ In (status (fst (search_advanced_any db q req))) [200%Z; 400%Z; 500%Z])
  /\ (q = Structured ->
      search_any db q req
        = ({| status := 500;
              body := ErrorBody "Internal server error" "Failed to perform search" |}, [])
      /\ search_advanced_any db q req
        = ({| status := 500;
              body := ErrorBody "Internal server error"
                                "Failed to perform advanced search" |}, []))
  /\ (status (fst (search_any db q req)) = 400%Z <->
      q <> Structured /\ query_ok (text q) = false)
  /\ (status (fst (search_advanced_any db q req)) = 400%Z <->
      q <> Structured
      /\ (query_ok (text q) = false \/ type_ok (req_type req) = false))
  /\ (status (fst (search_any db q req)) = 200%Z <->
      query_ok (text q) = true /\ forall n, (n < 4)%nat -> fails db n = false)
  /\ (status (fst (search_advanced_any db q req)) = 200%Z <->
      exists query, q = Text query
        /\ query_ok (text q) = true /\ type_ok (req_type req) = true
        /\ forall n, (n < List.length (admitted req query))%nat -> fails db n = false)
  /\ (status (fst (search_any db q req)) = 500%Z <->
      q = Structured
      \/ (query_ok (text q) = true /\ exists k, (k < 4)%nat /\ fails db k = true))
  /\ (status (fst (search_advanced_any db q req)) = 500%Z <->
      q = Structured
      \/ exists query, q = Text query
           /\ query_ok (text q) = true /\ type_ok (req_type req) = true
           /\ exists k, (k < List.length (admitted req query))%nat /\ fails db k = true).
Proof.
  destruct q as [| s |].
  - (* undefined *)
    pose proof (status_classification db (with_q Absent req))
      as ([Hb Ha] & H4b & H4a & H2b & H2a).
    unfold search_any, search_advanced_any.
    cbn [with_q text req_q req_type] in *.
    destruct (search_invalid db (with_q Absent req) eq_refl) as [Eb Ea].
    rewrite Eb, Ea. cbn [fst status invalid_query].
    repeat split; try tauto; try discriminate; try (simpl; tauto);
      try (intros [? | ?]; discriminate);
      try (intros [? ?]; discriminate);
      try (intros (? & ? & _); discriminate);
      try (intros [? | (? & ? & _)]; discriminate);
      try (intros [? | (? & _)]; discriminate).
  - (* a string *)
    pose proof (status_classification db (with_q (Text s) req))
      as ([Hb Ha] & H4b & H4a & H2b & H2a).
    unfold search_any, search_advanced_any.
    cbn [with_q text req_q req_type] in *.
    assert (Hadm : forall query,
              admitted (with_q (Text s) req) query = admitted req query)
      by reflexivity.
    split; [split; assumption|].
    split; [discriminate|].
    split; [rewrite H4b; split; [intros H; split; [discriminate | exact H] | tauto]|].
    split; [rewrite H4a; split; [intros H; split; [discriminate | exact H] | tauto]|].
    split; [exact H2b|].
    split.
    { rewrite H2a. split.
      - intros (query & Hq & Hok & Hty & Hall). exists query.
        inversion Hq; subst. rewrite Hadm in Hall. auto.
      - intros (query & Hq & Hok & Hty & Hall). exists query.
        inversion Hq; subst. rewrite Hadm. auto. }
    split.
    { split.
      - intros H5. right.
        destruct (query_ok (Some s)) eqn:Hok.
        + split; [reflexivity|].
          destruct (first_failure (fails db) 4) as [Hup | (k & Hk & Hf & _)]; [|eauto].
          assert (status (fst (search db (with_q (Text s) req))) = 200%Z)
            by (apply H2b; auto).
          congruence.
        + assert (status (fst (search db (with_q (Text s) req))) = 400%Z)
            by (apply H4b; reflexivity).
          congruence.
      - intros [H | (Hok & k & Hk & Hf)]; [discriminate|].
        simpl in Hb. destruct Hb as [Hb | [Hb | [Hb | []]]]; [| |now symmetry].
        + symmetry in Hb. apply H2b in Hb. destruct Hb as [_ Hall].
          rewrite (Hall k Hk) in Hf. discriminate.
        + symmetry in Hb. apply H4b in Hb. congruence. }
    { split.
      - intros H5. right. exists s. split; [reflexivity|].
        destruct (query_ok (Some s)) eqn:Hok.
        + destruct (type_ok (req_type req)) eqn:Hty.
          * repeat split.
            destruct (first_failure (fails db) (List.length (admitted req s)))
              as [Hup | (k & Hk & Hf & _)]; [|eauto].
            assert (status (fst (search_advanced db (with_q (Text s) req))) = 200%Z).
            { apply H2a. exists s. rewrite Hadm. auto. }
            congruence.
          * assert (status (fst (search_advanced db (with_q (Text s) req))) = 400%Z)
              by (apply H4a; now right).
            congruence.
        + assert (status (fst (search_advanced db (with_q (Text s) req))) = 400%Z)
            by (apply H4a; now left).
          congruence.
      - intros [H | (query & Hq & Hok & Hty & k & Hk & Hf)]; [discriminate|].
        inversion Hq; subst query.
        simpl in Ha. destruct Ha as [Ha | [Ha | [Ha | []]]]; [| |now symmetry].
        + symmetry in Ha. apply H2a in Ha.
          destruct Ha as (query' & Hq' & _ & _ & Hall).
          inversion Hq'; subst query'. rewrite Hadm in Hall.
          rewrite (Hall k Hk) in Hf. discriminate.
        + symmetry in Ha. apply H4a in Ha. destruct Ha; congruence. }
  - (* an array or object *)
    unfold search_any, search_advanced_any, try_catch, trim_throws.
    cbn [fst status internal_error text]. unfold query_ok.
    repeat split; try tauto; try discriminate; try (simpl; tauto);
      try (intros [? ?]; congruence);
      try (intros (? & ? & _); discriminate);
      try (intros _; now left).
Qed.

End AnyQuery.

(* ===================================================================== *)
(** ** Requests at the boundary of the statements *)
(* ===================================================================== *)

Section Boundary.
Import SQL Search Sample.

Lemma advanced_limit_negative_counterexample :
  status (fst (search_advanced db (request (Some "React") None None (Some "-1")))) = 200%Z
  /\ parsed_limit (req_limit (request (Some "React") None None (Some "-1")))
     = Some (-1)%Z
  /\ map title (rows_of db (snd (search_advanced db
                                   (request (Some "React") None None (Some "-1")))))
     = ["React"; "React Native"; "React"]
  /\ map title (resp_data (fst (search_advanced db
                                  (request (Some "React") None None (Some "-1")))))
     = ["React"; "React Native"]
  /\ resp_data (fst (search_advanced db (request (Some "React") None None (Some "-1"))))
     <> firstn (Z.to_nat (-1))
          (rows_of db (snd (search_advanced db
                              (request (Some "React") None None (Some "-1"))))).
Proof.
  repeat split; try reflexivity. vm_compute. discriminate.
Qed.


Lemma status_of_any_query_witness :
  Raw.search_any db Raw.Structured (request None None None None)
  = (internal_error "Failed to perform search", [])
  /\ status (fst (Raw.search_any db (Raw.Text "react") (request None None None None)))
     = 200%Z.
Proof.
  split.
  - apply (proj1 (proj2 (status_of_any_query db Raw.Structured
                           (request None None None None)))).
    reflexivity.
  - apply (proj2 (proj1 (proj2 (proj2 (proj2 (proj2
             (status_of_any_query db (Raw.Text "react")
                (request None None None None)))))))).
    split; [reflexivity | intros n Hn; reflexivity].
Defined.

End Boundary.
